(** * The exact EVM payment scheme: [verify] and [settle]

    A shallow embedding of the facilitator of the exact-amount EVM payment
    scheme (functions [verify] and [settle]) together with the properties
    its specification states about them.

    The two functions are asynchronous TypeScript code which talks to a chain
    client.  They are embedded in a small monad that threads the state of the
    outside world, records every call made to the client in a trace, and
    propagates JavaScript exceptions. *)

From Stdlib Require Import ZArith List String Ascii Bool Lia.
Import ListNotations.

Local Open Scope string_scope.
Local Open Scope Z_scope.
Local Open Scope list_scope.

(** ** Exceptions and outcomes *)

(** A thrown JavaScript value.  Only its presence matters here. *)
Inductive exn : Type :=
| Error (message : string).

(** What evaluating an expression (or awaiting a promise) yields: a value, or
    a thrown exception (a rejected promise). *)
Inductive outcome (A : Type) : Type :=
| Ret (a : A)
| Throw (e : exn).

Arguments Ret {A} a.
Arguments Throw {A} e.

(** ** Data model *)

(** The values of [invalidReason] and [errorReason] the two functions use. *)
Inductive ErrorReason : Type :=
| unsupported_scheme
| invalid_network
| invalid_exact_evm_payload_signature
| invalid_exact_evm_payload_recipient_mismatch
| invalid_exact_evm_payload_authorization_valid_before
| invalid_exact_evm_payload_authorization_valid_after
| insufficient_funds
| invalid_exact_evm_payload_authorization_value
| invalid_exact_evm_payload_undeployed_smart_wallet
| invalid_scheme
| invalid_transaction_state.

Module Authorization.
Record t : Type := mk {
  from : string;
  to : string;
  value : string;
  validAfter : string;
  validBefore : string;
  nonce : string
}.
End Authorization.

Module ExactEvmPayload.
Record t : Type := mk {
  signature : string;
  authorization : Authorization.t
}.
End ExactEvmPayload.

Module PaymentPayload.
Record t : Type := mk {
  x402Version : Z;
  scheme : string;
  network : string;
  payload : ExactEvmPayload.t
}.
End PaymentPayload.

Module Extra.
Record t : Type := mk {
  name : option string;
  version : option string
}.
End Extra.

Module PaymentRequirements.
Record t : Type := mk {
  scheme : string;
  network : string;
  maxAmountRequired : string;
  payTo : string;
  asset : string;
  extra : option Extra.t
}.
End PaymentRequirements.

Module VerifyResponse.
Record t : Type := mk {
  isValid : bool;
  invalidReason : option ErrorReason;
  payer : string
}.
End VerifyResponse.

Module SettleResponse.
Record t : Type := mk {
  success : bool;
  errorReason : option ErrorReason;
  transaction : string;
  network : string;
  payer : string
}.
End SettleResponse.

(** The typed structured data handed to [client.verifyTypedData]; the
    constant [types] and [primaryType] entries are left out. *)
Module TypedData.
Record domain : Type := mkDomain {
  name : string;
  version : string;
  chainId : Z;
  verifyingContract : string
}.
Record t : Type := mk {
  address : string;
  dom : domain;
  message : Authorization.t;
  signature : string
}.
End TypedData.

(** The result of viem's [parseErc6492Signature]: the inner signature and,
    for a wrapped signature, the factory address and its call data. *)
Module Erc6492.
Record t : Type := mk {
  signature : string;
  address : option string;
  data : option string
}.
End Erc6492.

(** The result of viem's [parseSignature]. *)
Module Signature.
Record t : Type := mk {
  r : string;
  s : string;
  v : option Z;
  yParity : Z
}.
End Signature.

(** The argument list of the two overloads of [transferWithAuthorization]. *)
Inductive TransferArgs : Type :=
| BytesSignature (from to : string) (value validAfter validBefore : Z)
                 (nonce : string) (signature : string)
| ScalarTriple (from to : string) (value validAfter validBefore : Z)
               (nonce : string) (v : Z) (r s : string).

Module WriteContract.
Record t : Type := mk {
  address : string;
  functionName : string;
  args : TransferArgs
}.
End WriteContract.

Inductive ReceiptStatus : Type :=
| success
| reverted.

Module Receipt.
Record t : Type := mk { status : ReceiptStatus }.
End Receipt.

Module ChainConfig.
Record t : Type := mk {
  usdcAddress : string;
  usdcName : string
}.
End ChainConfig.

(** Modelled from the spec: the constant [SCHEME] of the exact scheme is not
    among the sources; it is the exact-scheme identifier, which the tests of
    the facilitator write as the string exact. *)
Definition SCHEME : string := "exact".

(** ** The calls made to the chain client *)

Inductive Event : Type :=
| EGetVersion (r : outcome string)
| EVerifyTypedData (p : TypedData.t) (r : outcome bool)
| EDateNow (ms : Z)
| EGetERC20Balance (erc20Address address : string) (r : outcome Z)
| EGetCode (address : string) (r : outcome (option string))
| EWriteContract (p : WriteContract.t) (r : outcome string)
| EWaitForTransactionReceipt (hash : string) (r : outcome Receipt.t).

Definition isWrite (e : Event) : bool :=
  match e with
  | EWriteContract _ _ => true
  | _ => false
  end.

(** Whether an event is a read of the chain that failed. *)
Definition readFailed (e : Event) : bool :=
  match e with
  | EGetVersion (Throw _) => true
  | EVerifyTypedData _ (Throw _) => true
  | EGetERC20Balance _ _ (Throw _) => true
  | EGetCode _ (Throw _) => true
  | _ => false
  end.

(** Pure helpers that are imported from libraries or from modules of the
    repository that are not among the sources.  [getNetworkId] throws on an
    unknown network, [config] is the table of chain configurations, [BigInt]
    is the JavaScript conversion of a string (it throws a SyntaxError on a
    string that is no integer literal), [keccak256] yields the bytes of the
    hash, and the two parsers are viem's. *)
Record Lib : Type := mkLib {
  getNetworkId : string -> outcome Z;
  config : Z -> option ChainConfig.t;
  BigInt : string -> outcome Z;
  keccak256 : string -> list Z;
  parseErc6492Signature : string -> outcome Erc6492.t;
  parseSignature : string -> outcome Signature.t
}.

(** The chain client ([ConnectedClient] for [verify], [SignerWallet] for
    [settle]) and the clock, as transitions of the outside world. *)
Record Client (World : Type) : Type := mkClient {
  getVersion : World -> outcome string * World;
  verifyTypedData : TypedData.t -> World -> outcome bool * World;
  Date_now : World -> Z * World;
  getERC20Balance : string -> string -> World -> outcome Z * World;
  getCode : string -> World -> outcome (option string) * World;
  writeContract : WriteContract.t -> World -> outcome string * World;
  waitForTransactionReceipt : string -> World -> outcome Receipt.t * World
}.

Arguments getVersion {World} _ _.
Arguments verifyTypedData {World} _ _ _.
Arguments Date_now {World} _ _.
Arguments getERC20Balance {World} _ _ _ _.
Arguments getCode {World} _ _ _.
Arguments writeContract {World} _ _ _.
Arguments waitForTransactionReceipt {World} _ _ _.

(** ** The monad *)

(** A computation maps the state of the world to an outcome, the new state
    and the calls it made, in order. *)
Definition M (World A : Type) : Type := World -> outcome A * World * list Event.

Definition ret {World A : Type} (a : A) : M World A :=
  fun w => (Ret a, w, []).

Definition lift {World A : Type} (o : outcome A) : M World A :=
  fun w => (o, w, []).

Definition bind {World A B : Type} (m : M World A) (f : A -> M World B) : M World B :=
  fun w =>
    match m w with
    | (Ret a, w1, t1) =>
        match f a w1 with
        | (o, w2, t2) => (o, w2, t1 ++ t2)
        end
    | (Throw e, w1, t1) => (Throw e, w1, t1)
    end.

(** [try { m } catch { h }]. *)
Definition try_catch {World A : Type} (m : M World A) (h : M World A) : M World A :=
  fun w =>
    match m w with
    | (Ret a, w1, t1) => (Ret a, w1, t1)
    | (Throw _, w1, t1) =>
        match h w1 with
        | (o, w2, t2) => (o, w2, t1 ++ t2)
        end
    end.

Declare Scope monad_scope.
Delimit Scope monad_scope with monad.
Notation "x <- m ;; k" := (bind m (fun x => k))
  (at level 61, m at next level, right associativity) : monad_scope.

Definition await_getVersion {World} (c : Client World) : M World string :=
  fun w => let (r, w') := getVersion c w in (r, w', [EGetVersion r]).

Definition await_verifyTypedData {World} (c : Client World) (p : TypedData.t) : M World bool :=
  fun w => let (r, w') := verifyTypedData c p w in (r, w', [EVerifyTypedData p r]).

Definition call_Date_now {World} (c : Client World) : M World Z :=
  fun w => let (ms, w') := Date_now c w in (Ret ms, w', [EDateNow ms]).

Definition await_getERC20Balance {World} (c : Client World) (erc20Address address : string)
  : M World Z :=
  fun w => let (r, w') := getERC20Balance c erc20Address address w in
           (r, w', [EGetERC20Balance erc20Address address r]).

Definition await_getCode {World} (c : Client World) (address : string)
  : M World (option string) :=
  fun w => let (r, w') := getCode c address w in (r, w', [EGetCode address r]).

Definition await_writeContract {World} (c : Client World) (p : WriteContract.t)
  : M World string :=
  fun w => let (r, w') := writeContract c p w in (r, w', [EWriteContract p r]).

Definition await_waitForTransactionReceipt {World} (c : Client World) (hash : string)
  : M World Receipt.t :=
  fun w => let (r, w') := waitForTransactionReceipt c hash w in
           (r, w', [EWaitForTransactionReceipt hash r]).

(** ** Strings *)

(** [s.substring(n)]: the string from index [n] on. *)
Fixpoint substring_from (n : nat) (s : string) : string :=
  match n, s with
  | O, _ => s
  | S n', String _ s' => substring_from n' s'
  | S _, EmptyString => EmptyString
  end.

Definition isUpperChar (c : ascii) : bool :=
  let n := nat_of_ascii c in (65 <=? n)%nat && (n <=? 90)%nat.

Definition isLowerChar (c : ascii) : bool :=
  let n := nat_of_ascii c in (97 <=? n)%nat && (n <=? 122)%nat.

Definition toLowerCaseChar (c : ascii) : ascii :=
  if isUpperChar c then ascii_of_nat (nat_of_ascii c + 32) else c.

Definition toUpperCaseChar (c : ascii) : ascii :=
  if isLowerChar c then ascii_of_nat (nat_of_ascii c - 32) else c.

Fixpoint toLowerCase (s : string) : string :=
  match s with
  | EmptyString => EmptyString
  | String c s' => String (toLowerCaseChar c) (toLowerCase s')
  end.

Definition isHexDigit (c : ascii) : bool :=
  let n := nat_of_ascii c in
  ((48 <=? n)%nat && (n <=? 57)%nat)
  || ((97 <=? n)%nat && (n <=? 102)%nat)
  || ((65 <=? n)%nat && (n <=? 70)%nat).

Fixpoint allHexDigits (s : string) : bool :=
  match s with
  | EmptyString => true
  | String c s' => isHexDigit c && allHexDigits s'
  end.

(** ** viem's address normalisation

    [getAddress] as viem defines it: a test of the shape of the address, then
    the checksum casing.  The case conversions are those of ASCII, which are
    the only ones a well-formed address meets. *)

(** [isAddress(address, { strict: false })]: the regular expression
    [^0x[a-fA-F0-9]{40}$]. *)
Definition isAddress (address : string) : bool :=
  match address with
  | String "0" (String "x" rest) => (length rest =? 40)%nat && allHexDigits rest
  | _ => false
  end.

(** The loop of [checksumAddress]: character [i] of the lower-case address is
    put in upper case when nibble [i] of the hash is at least 8. *)
Fixpoint checksumChars (hash : list Z) (i : nat) (address : string) : string :=
  match address with
  | EmptyString => EmptyString
  | String c rest =>
      let byte := nth (Nat.div2 i) hash 0 in
      let nibble := if Nat.even i then Z.shiftr byte 4 else Z.land byte 15 in
      String (if (i <? 40)%nat && (8 <=? nibble) then toUpperCaseChar c else c)
             (checksumChars hash (S i) rest)
  end.

Definition checksumAddress (lib : Lib) (address_ : string) : string :=
  let hexAddress := toLowerCase (substring_from 2 address_) in
  let hash := keccak256 lib hexAddress in
  append "0x" (checksumChars hash 0 hexAddress).

Definition getAddress (lib : Lib) (address : string) : outcome string :=
  if negb (isAddress address) then Throw (Error "InvalidAddressError")
  else Ret (checksumAddress lib address).

(** ** Numbers *)

(** [Number(v)] for a bigint [v]: the nearest double, ties to even (the
    overflow to infinity, beyond 2^1024, is not modelled).  It is [v] itself
    up to 2^53. *)
Definition Number (v : Z) : Z :=
  let a := Z.abs v in
  if a <? 2 ^ 53 then v
  else
    let e := Z.log2 a - 52 in
    let q := a / 2 ^ e in
    let r := a mod 2 ^ e in
    let half := 2 ^ (e - 1) in
    let q' := if (half <? r) || ((half =? r) && Z.odd q) then q + 1 else q in
    Z.sgn v * (q' * 2 ^ e).

(** [Math.floor(ms / 1000)] for a clock reading in milliseconds. *)
Definition seconds (ms : Z) : Z := ms / 1000.

(** ** The signature shape *)

(** [signature.startsWith("0x") ? signature.length - 2 : signature.length];
    a signature is a string of ASCII characters, one per UTF-16 unit. *)
Definition signatureLength (signature : string) : Z :=
  if prefix "0x" signature
  then Z.of_nat (length signature) - 2
  else Z.of_nat (length signature).

Definition isSmartWallet (signature : string) : bool :=
  signatureLength signature >? 130.

(** The two shapes the specification names. *)
Inductive SignatureShape : Type :=
| EOA
| ContractWallet.

Definition classify (signature : string) : SignatureShape :=
  if isSmartWallet signature then ContractWallet else EOA.

(** The number of bytes a hexadecimal signature encodes, when it encodes a
    whole number of them. *)
Definition byteLength (signature : string) : option Z :=
  let n := signatureLength signature in
  if Z.even n then Some (n / 2) else None.

(** [!bytecode || bytecode === "0x"] *)
Definition noBytecode (bytecode : option string) : bool :=
  match bytecode with
  | None => true
  | Some b => (b =? "")%string || (b =? "0x")%string
  end.

(** Truthiness of an optional string. *)
Definition truthy (s : option string) : bool :=
  match s with
  | None => false
  | Some b => negb (b =? "")%string
  end.

(** [erc6492Data.address && erc6492Data.data] *)
Definition hasDeploymentInfo (erc6492Data : Erc6492.t) : bool :=
  truthy (Erc6492.address erc6492Data) && truthy (Erc6492.data erc6492Data).

(** [paymentRequirements.extra?.name] and [paymentRequirements.extra?.version] *)
Definition extra_name (paymentRequirements : PaymentRequirements.t) : option string :=
  match PaymentRequirements.extra paymentRequirements with
  | Some e => Extra.name e
  | None => None
  end.

Definition extra_version (paymentRequirements : PaymentRequirements.t) : option string :=
  match PaymentRequirements.extra paymentRequirements with
  | Some e => Extra.version e
  | None => None
  end.

(** [config[chainId.toString()].usdcName]: a TypeError when the chain has no
    entry. *)
Definition config_usdcName (lib : Lib) (chainId : Z) : outcome string :=
  match config lib chainId with
  | Some c => Ret (ChainConfig.usdcName c)
  | None => Throw (Error "TypeError")
  end.

(** ** verify *)

Local Open Scope monad_scope.

Definition verify {World} (lib : Lib) (client : Client World)
    (payload : PaymentPayload.t) (paymentRequirements : PaymentRequirements.t)
  : M World VerifyResponse.t :=
  let exactEvmPayload := PaymentPayload.payload payload in
  let authorization := ExactEvmPayload.authorization exactEvmPayload in
  (* Verify payload version *)
  if negb (PaymentPayload.scheme payload =? SCHEME)%string
     || negb (PaymentRequirements.scheme paymentRequirements =? SCHEME)%string
  then
    ret {| VerifyResponse.isValid := false;
           VerifyResponse.invalidReason := Some unsupported_scheme;
           VerifyResponse.payer := Authorization.from authorization |}
  else
    resolved <-
      try_catch
        (chainId <- lift (getNetworkId lib (PaymentPayload.network payload));;
         name <- match extra_name paymentRequirements with
                 | Some n => ret n
                 | None => lift (config_usdcName lib chainId)
                 end;;
         let erc20Address := PaymentRequirements.asset paymentRequirements in
         version <- match extra_version paymentRequirements with
                    | Some v => ret v
                    | None => await_getVersion client
                    end;;
         ret (Some (name, chainId, erc20Address, version)))
        (ret None);;
    match resolved with
    | None =>
        ret {| VerifyResponse.isValid := false;
               VerifyResponse.invalidReason := Some invalid_network;
               VerifyResponse.payer := Authorization.from authorization |}
    | Some (name, chainId, erc20Address, version) =>
        (* Verify permit signature is recoverable for the owner address *)
        recoveredAddress <-
          await_verifyTypedData client
            {| TypedData.address := Authorization.from authorization;
               TypedData.dom :=
                 {| TypedData.name := name;
                    TypedData.version := version;
                    TypedData.chainId := chainId;
                    TypedData.verifyingContract := erc20Address |};
               TypedData.message := authorization;
               TypedData.signature := ExactEvmPayload.signature exactEvmPayload |};;
        if negb recoveredAddress then
          ret {| VerifyResponse.isValid := false;
                 VerifyResponse.invalidReason := Some invalid_exact_evm_payload_signature;
                 VerifyResponse.payer := Authorization.from authorization |}
        else
          (* Verify that payment was made to the correct address *)
          to_ <- lift (getAddress lib (Authorization.to authorization));;
          payTo_ <- lift (getAddress lib (PaymentRequirements.payTo paymentRequirements));;
          if negb (to_ =? payTo_)%string then
            ret {| VerifyResponse.isValid := false;
                   VerifyResponse.invalidReason :=
                     Some invalid_exact_evm_payload_recipient_mismatch;
                   VerifyResponse.payer := Authorization.from authorization |}
          else
            (* Verify deadline is not yet expired; pad 3 blocks *)
            validBefore <- lift (BigInt lib (Authorization.validBefore authorization));;
            now1 <- call_Date_now client;;
            if validBefore <? seconds now1 + 6 then
              ret {| VerifyResponse.isValid := false;
                     VerifyResponse.invalidReason :=
                       Some invalid_exact_evm_payload_authorization_valid_before;
                     VerifyResponse.payer := Authorization.from authorization |}
            else
              (* Verify deadline is not yet valid *)
              validAfter <- lift (BigInt lib (Authorization.validAfter authorization));;
              now2 <- call_Date_now client;;
              if validAfter >? seconds now2 then
                ret {| VerifyResponse.isValid := false;
                       VerifyResponse.invalidReason :=
                         Some invalid_exact_evm_payload_authorization_valid_after;
                       VerifyResponse.payer := Authorization.from authorization |}
              else
                (* Verify client has enough funds *)
                balance <- await_getERC20Balance client erc20Address
                             (Authorization.from authorization);;
                maxAmountRequired <-
                  lift (BigInt lib (PaymentRequirements.maxAmountRequired paymentRequirements));;
                if balance <? maxAmountRequired then
                  ret {| VerifyResponse.isValid := false;
                         VerifyResponse.invalidReason := Some insufficient_funds;
                         VerifyResponse.payer := Authorization.from authorization |}
                else
                  (* Verify value in payload is enough *)
                  value <- lift (BigInt lib (Authorization.value authorization));;
                  maxAmountRequired' <-
                    lift (BigInt lib (PaymentRequirements.maxAmountRequired paymentRequirements));;
                  if value <? maxAmountRequired' then
                    ret {| VerifyResponse.isValid := false;
                           VerifyResponse.invalidReason :=
                             Some invalid_exact_evm_payload_authorization_value;
                           VerifyResponse.payer := Authorization.from authorization |}
                  else
                    (* Check if smart wallet is deployed *)
                    let signature := ExactEvmPayload.signature exactEvmPayload in
                    let valid :=
                      {| VerifyResponse.isValid := true;
                         VerifyResponse.invalidReason := None;
                         VerifyResponse.payer := Authorization.from authorization |} in
                    if isSmartWallet signature then
                      let payerAddress := Authorization.from authorization in
                      bytecode <- await_getCode client payerAddress;;
                      if noBytecode bytecode then
                        erc6492Data <- lift (parseErc6492Signature lib signature);;
                        if negb (hasDeploymentInfo erc6492Data) then
                          ret {| VerifyResponse.isValid := false;
                                 VerifyResponse.invalidReason :=
                                   Some invalid_exact_evm_payload_undeployed_smart_wallet;
                                 VerifyResponse.payer := payerAddress |}
                        else ret valid
                      else ret valid
                    else ret valid
    end.

(** ** settle *)

(** [valid.invalidReason ?? "invalid_scheme"] *)
Definition reasonOrInvalidScheme (invalidReason : option ErrorReason) : ErrorReason :=
  match invalidReason with
  | Some r => r
  | None => invalid_scheme
  end.

Definition settle {World} (lib : Lib) (wallet : Client World)
    (paymentPayload : PaymentPayload.t) (paymentRequirements : PaymentRequirements.t)
  : M World SettleResponse.t :=
  let payload := PaymentPayload.payload paymentPayload in
  let authorization := ExactEvmPayload.authorization payload in
  (* re-verify to ensure the payment is still valid *)
  valid <- verify lib wallet paymentPayload paymentRequirements;;
  if negb (VerifyResponse.isValid valid) then
    ret {| SettleResponse.success := false;
           SettleResponse.network := PaymentPayload.network paymentPayload;
           SettleResponse.transaction := "";
           SettleResponse.errorReason :=
             Some (reasonOrInvalidScheme (VerifyResponse.invalidReason valid));
           SettleResponse.payer := Authorization.from authorization |}
  else
    (* Check if smart wallet is deployed before attempting settlement *)
    let signature := ExactEvmPayload.signature payload in
    let isSmartWallet := isSmartWallet signature in
    undeployed <-
      (if isSmartWallet then
         bytecode <- await_getCode wallet (Authorization.from authorization);;
         ret (noBytecode bytecode)
       else ret false);;
    if undeployed then
      ret {| SettleResponse.success := false;
             SettleResponse.network := PaymentPayload.network paymentPayload;
             SettleResponse.transaction := "";
             SettleResponse.errorReason :=
               Some invalid_exact_evm_payload_undeployed_smart_wallet;
             SettleResponse.payer := Authorization.from authorization |}
    else
      tx <-
        (if isSmartWallet then
           (* Smart wallets: use the bytes signature overload *)
           unwrapped <- lift (parseErc6492Signature lib signature);;
           value <- lift (BigInt lib (Authorization.value authorization));;
           validAfter <- lift (BigInt lib (Authorization.validAfter authorization));;
           validBefore <- lift (BigInt lib (Authorization.validBefore authorization));;
           await_writeContract wallet
             {| WriteContract.address := PaymentRequirements.asset paymentRequirements;
                WriteContract.functionName := "transferWithAuthorization";
                WriteContract.args :=
                  BytesSignature
                    (Authorization.from authorization)
                    (Authorization.to authorization)
                    value validAfter validBefore
                    (Authorization.nonce authorization)
                    (Erc6492.signature unwrapped) |}
         else
           (* EOA: use the (v, r, s) overload *)
           parsedSig <- lift (parseSignature lib signature);;
           let v := match Signature.v parsedSig with
                    | Some v' => Number v'
                    | None => 27 + Signature.yParity parsedSig
                    end in
           value <- lift (BigInt lib (Authorization.value authorization));;
           validAfter <- lift (BigInt lib (Authorization.validAfter authorization));;
           validBefore <- lift (BigInt lib (Authorization.validBefore authorization));;
           await_writeContract wallet
             {| WriteContract.address := PaymentRequirements.asset paymentRequirements;
                WriteContract.functionName := "transferWithAuthorization";
                WriteContract.args :=
                  ScalarTriple
                    (Authorization.from authorization)
                    (Authorization.to authorization)
                    value validAfter validBefore
                    (Authorization.nonce authorization)
                    v
                    (Signature.r parsedSig)
                    (Signature.s parsedSig) |});;
      receipt <- await_waitForTransactionReceipt wallet tx;;
      match Receipt.status receipt with
      | success =>
          ret {| SettleResponse.success := true;
                 SettleResponse.errorReason := None;
                 SettleResponse.transaction := tx;
                 SettleResponse.network := PaymentPayload.network paymentPayload;
                 SettleResponse.payer := Authorization.from authorization |}
      | reverted =>
          ret {| SettleResponse.success := false;
                 SettleResponse.errorReason := Some invalid_transaction_state;
                 SettleResponse.transaction := tx;
                 SettleResponse.network := PaymentPayload.network paymentPayload;
                 SettleResponse.payer := Authorization.from authorization |}
      end.

(** ** Vocabulary of the properties *)

(** The result of [verify] rejects with the given reason. *)
Definition rejects (o : outcome VerifyResponse.t) (reason : ErrorReason) : Prop :=
  match o with
  | Ret res =>
      VerifyResponse.isValid res = false
      /\ VerifyResponse.invalidReason res = Some reason
  | Throw _ => False
  end.

(** The result of [verify] accepts. *)
Definition accepts (o : outcome VerifyResponse.t) : Prop :=
  match o with
  | Ret res =>
      VerifyResponse.isValid res = true
      /\ VerifyResponse.invalidReason res = None
  | Throw _ => False
  end.

(** The result of [settle] fails with the given reason. *)
Definition failsWith (o : outcome SettleResponse.t) (reason : ErrorReason) : Prop :=
  match o with
  | Ret res =>
      SettleResponse.success res = false
      /\ SettleResponse.errorReason res = Some reason
  | Throw _ => False
  end.

(** The clock readings of a trace, in order. *)
Fixpoint clockReadings (tr : list Event) : list Z :=
  match tr with
  | [] => []
  | EDateNow ms :: tr' => ms :: clockReadings tr'
  | _ :: tr' => clockReadings tr'
  end.

(** The reads of the chain and of the clock that [verify] makes once the
    network is resolved, in the order of its checks: signature, valid-before,
    valid-after, balance, bytecode. *)
Inductive ReadKind : Type :=
| KVerifyTypedData
| KDateNow
| KGetERC20Balance
| KGetCode.

Definition readOrder : list ReadKind :=
  [KVerifyTypedData; KDateNow; KDateNow; KGetERC20Balance; KGetCode].

Fixpoint reads (tr : list Event) : list ReadKind :=
  match tr with
  | [] => []
  | EVerifyTypedData _ _ :: tr' => KVerifyTypedData :: reads tr'
  | EDateNow _ :: tr' => KDateNow :: reads tr'
  | EGetERC20Balance _ _ _ :: tr' => KGetERC20Balance :: reads tr'
  | EGetCode _ _ :: tr' => KGetCode :: reads tr'
  | _ :: tr' => reads tr'
  end.

(** How many of these reads have been made when a reason is reported. *)
Definition readsBefore (reason : ErrorReason) : nat :=
  match reason with
  | unsupported_scheme => 0
  | invalid_network => 0
  | invalid_exact_evm_payload_signature => 1
  | invalid_exact_evm_payload_recipient_mismatch => 1
  | invalid_exact_evm_payload_authorization_valid_before => 2
  | invalid_exact_evm_payload_authorization_valid_after => 3
  | insufficient_funds => 4
  | invalid_exact_evm_payload_authorization_value => 4
  | invalid_exact_evm_payload_undeployed_smart_wallet => 5
  | invalid_scheme => 0
  | invalid_transaction_state => 0
  end.

(** The first transaction submitted in a trace. *)
Fixpoint firstWrite (tr : list Event) : option WriteContract.t :=
  match tr with
  | [] => None
  | EWriteContract q _ :: _ => Some q
  | _ :: tr' => firstWrite tr'
  end.

(** The recovery-id argument of a call of the scalar-triple overload. *)
Definition recoveryId (args : TransferArgs) : option Z :=
  match args with
  | ScalarTriple _ _ _ _ _ _ v _ _ => Some v
  | BytesSignature _ _ _ _ _ _ _ => None
  end.

(** ** A concrete library and client

    Used to run the two functions on concrete inputs. *)

Module Demo.

Definition getNetworkId (network : string) : outcome Z :=
  if (network =? "base-sepolia")%string then Ret 84532
  else Throw (Error "Unsupported network").

Definition config (chainId : Z) : option ChainConfig.t :=
  if chainId =? 84532
  then Some {| ChainConfig.usdcAddress := "0x036CbD53842c5426634e7929541eC2318f3dCF7e";
               ChainConfig.usdcName := "USDC" |}
  else None.

Fixpoint decimal (acc : Z) (s : string) : option Z :=
  match s with
  | EmptyString => Some acc
  | String c s' =>
      let n := nat_of_ascii c in
      if (48 <=? n)%nat && (n <=? 57)%nat
      then decimal (10 * acc + Z.of_nat (n - 48)) s'
      else None
  end.

(** [BigInt] on strings of decimal digits (the empty string is [0n]);
    every other string is refused here. *)
Definition BigInt (s : string) : outcome Z :=
  match decimal 0 s with
  | Some z => Ret z
  | None => Throw (Error "SyntaxError")
  end.

(** A stand-in for the hash. *)
Definition keccak256 (s : string) : list Z :=
  map (fun c => (Z.of_nat (nat_of_ascii c) * 37) mod 256) (list_ascii_of_string s).

Definition endsWith (suffix s : string) : bool :=
  (substring_from (length s - length suffix) s =? suffix)%string.

(** A signature counts as wrapped when it ends with the marker 6492. *)
Definition parseErc6492Signature (signature : string) : outcome Erc6492.t :=
  if endsWith "6492" signature
  then Ret {| Erc6492.signature := signature;
              Erc6492.address := Some "0xFactoryAddress000000000000000000000000";
              Erc6492.data := Some "0xfactoryCa11data" |}
  else Ret {| Erc6492.signature := signature;
              Erc6492.address := None;
              Erc6492.data := None |}.

(** The last byte of the signature gives the recovery id or the parity. *)
Definition parseSignature (signature : string) : outcome Signature.t :=
  let r := append "0x" (substring 2 64 signature) in
  let s := append "0x" (substring 66 64 signature) in
  let last := substring_from 130 signature in
  if (last =? "1b")%string then
    Ret {| Signature.r := r; Signature.s := s; Signature.v := Some 27; Signature.yParity := 0 |}
  else if (last =? "1c")%string then
    Ret {| Signature.r := r; Signature.s := s; Signature.v := Some 28; Signature.yParity := 1 |}
  else if (last =? "00")%string then
    Ret {| Signature.r := r; Signature.s := s; Signature.v := None; Signature.yParity := 0 |}
  else if (last =? "01")%string then
    Ret {| Signature.r := r; Signature.s := s; Signature.v := None; Signature.yParity := 1 |}
  else Throw (Error "Invalid yParityOrV value").

Definition lib : Lib :=
  mkLib getNetworkId config BigInt keccak256 parseErc6492Signature parseSignature.

(** The state of the world: the clock, the answers the chain gives, and the
    bytecode the next calls of [getCode] will see. *)
Record World : Type := mkWorld {
  clock : Z;
  signatureOk : outcome bool;
  balance : outcome Z;
  bytecodes : list (outcome (option string));
  txHash : outcome string;
  receipt : outcome Receipt.t
}.

Definition tick (w : World) : World :=
  {| clock := clock w + 400;
     signatureOk := signatureOk w;
     balance := balance w;
     bytecodes := bytecodes w;
     txHash := txHash w;
     receipt := receipt w |}.

Definition popBytecode (w : World) : outcome (option string) * World :=
  match bytecodes w with
  | [] => (Ret None, w)
  | b :: rest =>
      (b, {| clock := clock w;
             signatureOk := signatureOk w;
             balance := balance w;
             bytecodes := rest;
             txHash := txHash w;
             receipt := receipt w |})
  end.

Definition client : Client World :=
  {| getVersion := fun w => (Ret "2", w);
     verifyTypedData := fun _ w => (signatureOk w, w);
     Date_now := fun w => (clock w, tick w);
     getERC20Balance := fun _ _ w => (balance w, w);
     getCode := fun _ w => popBytecode w;
     writeContract := fun _ w => (txHash w, w);
     waitForTransactionReceipt := fun _ w => (receipt w, w) |}.

Definition payTo : string := "0x1234567890123456789012345678901234567890".
Definition payer : string := "0xabcdef1234567890123456789012345678901234".

Definition merchant : string := "0xabcdefabcdefabcdefabcdefabcdefabcdefabcd".
Definition merchantUpperCase : string := "0xABCDEFABCDEFABCDEFABCDEFABCDEFABCDEFABCD".
Definition stranger : string := "0x1111111111111111111111111111111111111111".
Definition asset : string := "0x036CbD53842c5426634e7929541eC2318f3dCF7e".

Definition paymentRequirementsTo (recipient : string) : PaymentRequirements.t :=
  {| PaymentRequirements.scheme := "exact";
     PaymentRequirements.network := "base-sepolia";
     PaymentRequirements.maxAmountRequired := "1000000";
     PaymentRequirements.payTo := recipient;
     PaymentRequirements.asset := asset;
     PaymentRequirements.extra := None |}.

Definition paymentRequirements : PaymentRequirements.t :=
  paymentRequirementsTo payTo.

(** The clock of the demo world starts at 1700000000 seconds. *)
Definition start : Z := 1700000000000.

Definition authorization (to value validAfter validBefore : string) : Authorization.t :=
  {| Authorization.from := payer;
     Authorization.to := to;
     Authorization.value := value;
     Authorization.validAfter := validAfter;
     Authorization.validBefore := validBefore;
     Authorization.nonce := "0x1234567890abcdef" |}.

Definition paymentPayload (signature : string) (a : Authorization.t) : PaymentPayload.t :=
  {| PaymentPayload.x402Version := 1;
     PaymentPayload.scheme := "exact";
     PaymentPayload.network := "base-sepolia";
     PaymentPayload.payload :=
       {| ExactEvmPayload.signature := signature;
          ExactEvmPayload.authorization := a |} |}.

(** A 65-byte signature (130 hexadecimal characters after the prefix). *)
Definition eoaSignature : string :=
  "0x1234567890abcdef1234567890abcdef1234567890abcdef1234567890abcdef1234567890abcdef1234567890abcdef1234567890abcdef1234567890abcdef1b".

(** The same signature with the parity in place of the recovery id. *)
Definition eoaParitySignature : string :=
  "0x1234567890abcdef1234567890abcdef1234567890abcdef1234567890abcdef1234567890abcdef1234567890abcdef1234567890abcdef1234567890abcdef01".

(** A compact 64-byte signature (128 hexadecimal characters). *)
Definition compactSignature : string :=
  "0x1234567890abcdef1234567890abcdef1234567890abcdef1234567890abcdef1234567890abcdef1234567890abcdef1234567890abcdef1234567890abcdef".

(** A 100-byte signature of a contract wallet, and one wrapped with
    deployment data. *)
Definition walletSignature : string :=
  append eoaSignature "0000000000000000000000000000000000000000000000000000000000000000000000".

Definition wrappedSignature : string :=
  append walletSignature "6492".

(** The typed data [verify] builds for an authorization in this world. *)
Definition typedData (signature : string) (a : Authorization.t) : TypedData.t :=
  {| TypedData.address := Authorization.from a;
     TypedData.dom :=
       {| TypedData.name := "USDC";
          TypedData.version := "2";
          TypedData.chainId := 84532;
          TypedData.verifyingContract := asset |};
     TypedData.message := a;
     TypedData.signature := signature |}.

Definition goodAuthorization : Authorization.t :=
  authorization payTo "1000000" "1699999400" "1700000300".

Definition world (bal : outcome Z) (codes : list (outcome (option string))) : World :=
  {| clock := start;
     signatureOk := Ret true;
     balance := bal;
     bytecodes := codes;
     txHash := Ret "0xtxhash";
     receipt := Ret {| Receipt.status := success |} |}.

(** The same world, where the submitted transaction reverts. *)
Definition reverting (w : World) : World :=
  {| clock := clock w;
     signatureOk := signatureOk w;
     balance := balance w;
     bytecodes := bytecodes w;
     txHash := txHash w;
     receipt := Ret {| Receipt.status := reverted |} |}.

End Demo.

(** ** Further vocabulary: the calls of a trace *)

(** A call that acts on the chain or waits for it, as opposed to a read. *)
Definition isSubmission (e : Event) : bool :=
  match e with
  | EWriteContract _ _ => true
  | EWaitForTransactionReceipt _ _ => true
  | _ => false
  end.

Definition isGetVersion (e : Event) : bool :=
  match e with
  | EGetVersion _ => true
  | _ => false
  end.

Definition isGetCode (e : Event) : bool :=
  match e with
  | EGetCode _ _ => true
  | _ => false
  end.

Definition isWait (e : Event) : bool :=
  match e with
  | EWaitForTransactionReceipt _ _ => true
  | _ => false
  end.

(** The arguments the two overloads of [transferWithAuthorization] share. *)
Definition transferFrom (args : TransferArgs) : string :=
  match args with
  | BytesSignature from _ _ _ _ _ _ => from
  | ScalarTriple from _ _ _ _ _ _ _ _ => from
  end.

Definition transferTo (args : TransferArgs) : string :=
  match args with
  | BytesSignature _ to _ _ _ _ _ => to
  | ScalarTriple _ to _ _ _ _ _ _ _ => to
  end.

Definition transferValue (args : TransferArgs) : Z :=
  match args with
  | BytesSignature _ _ value _ _ _ _ => value
  | ScalarTriple _ _ value _ _ _ _ _ _ => value
  end.

Definition transferValidAfter (args : TransferArgs) : Z :=
  match args with
  | BytesSignature _ _ _ validAfter _ _ _ => validAfter
  | ScalarTriple _ _ _ validAfter _ _ _ _ _ => validAfter
  end.

Definition transferValidBefore (args : TransferArgs) : Z :=
  match args with
  | BytesSignature _ _ _ _ validBefore _ _ => validBefore
  | ScalarTriple _ _ _ _ validBefore _ _ _ _ => validBefore
  end.

Definition transferNonce (args : TransferArgs) : string :=
  match args with
  | BytesSignature _ _ _ _ _ nonce _ => nonce
  | ScalarTriple _ _ _ _ _ nonce _ _ _ => nonce
  end.

(** The signature argument of a call of the bytes overload. *)
Definition bytesSignature (args : TransferArgs) : option string :=
  match args with
  | BytesSignature _ _ _ _ _ _ signature => Some signature
  | ScalarTriple _ _ _ _ _ _ _ _ _ => None
  end.

(** The requirements with another [network] field, everything else kept. *)
Definition withNetwork (r : PaymentRequirements.t) (network : string)
  : PaymentRequirements.t :=
  {| PaymentRequirements.scheme := PaymentRequirements.scheme r;
     PaymentRequirements.network := network;
     PaymentRequirements.maxAmountRequired := PaymentRequirements.maxAmountRequired r;
     PaymentRequirements.payTo := PaymentRequirements.payTo r;
     PaymentRequirements.asset := PaymentRequirements.asset r;
     PaymentRequirements.extra := PaymentRequirements.extra r |}.

(** The payload with another [x402Version] field, everything else kept. *)
Definition withX402Version (p : PaymentPayload.t) (x402Version : Z) : PaymentPayload.t :=
  {| PaymentPayload.x402Version := x402Version;
     PaymentPayload.scheme := PaymentPayload.scheme p;
     PaymentPayload.network := PaymentPayload.network p;
     PaymentPayload.payload := PaymentPayload.payload p |}.

(** ** Further scenarios of the concrete world *)

Module Scenario.

(** The world in which the submission is refused by the node. *)
Definition submissionFails (w : Demo.World) : Demo.World :=
  Demo.mkWorld (Demo.clock w) (Demo.signatureOk w) (Demo.balance w) (Demo.bytecodes w)
    (Throw (Error "execution reverted")) (Demo.receipt w).

(** Requirements that name the token and its version in [extra]. *)
Definition withExtra (r : PaymentRequirements.t) (name version : option string)
  : PaymentRequirements.t :=
  {| PaymentRequirements.scheme := PaymentRequirements.scheme r;
     PaymentRequirements.network := PaymentRequirements.network r;
     PaymentRequirements.maxAmountRequired := PaymentRequirements.maxAmountRequired r;
     PaymentRequirements.payTo := PaymentRequirements.payTo r;
     PaymentRequirements.asset := PaymentRequirements.asset r;
     PaymentRequirements.extra :=
       Some {| Extra.name := name; Extra.version := version |} |}.

End Scenario.

(** ** The Solana client of the exact scheme

    [createPaymentHeader] and the functions under it build, sign and encode
    the token transfer that pays for a request.  The calls to the RPC node
    and to the signers are transitions of the outside world, recorded in a
    trace as for the facilitator; the message under construction is kept as
    the sequence of builder calls of the Solana SDK that [pipe] applies to
    it, in order. *)

Module Svm.

Record TransactionSigner : Type := mkSigner { address : string }.

(** [config?.svmConfig?.rpcUrl] *)
Record SvmConfig : Type := mkSvmConfig { rpcUrl : option string }.
Record X402Config : Type := mkConfig { svmConfig : option SvmConfig }.

Definition rpcUrlOf (config : option X402Config) : option string :=
  match config with
  | Some cfg =>
      match svmConfig cfg with
      | Some s => rpcUrl s
      | None => None
      end
  | None => None
  end.

(** The payment requirements, with the fee payer that [extra] may name. *)
Record PaymentRequirements : Type := mkRequirements {
  scheme : string;
  network : string;
  maxAmountRequired : string;
  payTo : string;
  asset : string;
  feePayer : option string
}.

Record PaymentPayload : Type := mkPayload {
  payload_scheme : string;
  payload_network : string;
  x402Version : Z;
  transaction : string
}.

(** What [fetchMint] yields, as far as it is used: the program that owns the
    mint, and [data.decimals]. *)
Record Mint : Type := mkMint {
  programAddress : string;
  decimals : Z
}.

Record Blockhash : Type := mkBlockhash {
  blockhash : string;
  lastValidBlockHeight : Z
}.

(** The instructions the client builds, by the SDK function that builds
    them. *)
Inductive Instruction : Type :=
| TransferChecked (source mint destination : string) (authority : TransactionSigner)
                  (amount : Z) (decimals : Z) (tokenProgram : string)
| SetComputeUnitLimit (units : Z).

(** One builder call on a transaction message. *)
Inductive Step : Type :=
| CreateTransactionMessage (version : Z)
| SetComputeUnitPrice (microLamports : Z)
| SetFeePayer (feePayer : option string)
| AppendInstructions (instructions : list Instruction)
| PrependInstruction (instruction : Instruction)
| SetLifetimeUsingBlockhash (latest : Blockhash).

Definition TransactionMessage : Type := list Step.

(** An RPC client, named by what [getRpcClient] was given. *)
Definition Rpc : Type := string.

(** A signed transaction, as an opaque value of the SDK. *)
Definition SignedTransaction : Type := string.

(** The pure functions of the SDK and of the modules that are not among the
    sources. *)
Record Sdk : Type := mkSdk {
  getRpcClient : string -> option string -> outcome Rpc;
  TOKEN_PROGRAM_ADDRESS : string;
  TOKEN_2022_PROGRAM_ADDRESS : string;
  findAssociatedTokenPda : string -> string -> string -> outcome string;
  getBase64EncodedWireTransaction : SignedTransaction -> string;
  encodePayment : PaymentPayload -> string
}.

Inductive Event : Type :=
| EFetchMint (rpc : Rpc) (mint : string) (r : outcome Mint)
| EEstimateComputeUnitLimit (rpc : Rpc) (tx : TransactionMessage) (r : outcome Z)
| EGetLatestBlockhash (rpc : Rpc) (r : outcome Blockhash)
| ESign (tx : TransactionMessage) (r : outcome SignedTransaction).

(** The RPC node and the signers, as transitions of the outside world. *)
Record Node (World : Type) : Type := mkNode {
  fetchMint : Rpc -> string -> World -> outcome Mint * World;
  estimateComputeUnitLimit : Rpc -> TransactionMessage -> World -> outcome Z * World;
  getLatestBlockhash : Rpc -> World -> outcome Blockhash * World;
  partiallySignTransactionMessageWithSigners :
    TransactionMessage -> World -> outcome SignedTransaction * World
}.

Arguments fetchMint {World} _ _ _ _.
Arguments estimateComputeUnitLimit {World} _ _ _ _.
Arguments getLatestBlockhash {World} _ _ _.
Arguments partiallySignTransactionMessageWithSigners {World} _ _ _.

Definition M (World A : Type) : Type := World -> outcome A * World * list Event.

Definition ret {World A : Type} (a : A) : M World A :=
  fun w => (Ret a, w, []).

Definition lift {World A : Type} (o : outcome A) : M World A :=
  fun w => (o, w, []).

Definition bind {World A B : Type} (m : M World A) (f : A -> M World B) : M World B :=
  fun w =>
    match m w with
    | (Ret a, w1, t1) =>
        match f a w1 with
        | (o, w2, t2) => (o, w2, t1 ++ t2)
        end
    | (Throw e, w1, t1) => (Throw e, w1, t1)
    end.

Declare Scope svm_scope.
Delimit Scope svm_scope with svm.
Notation "x <- m ;; k" := (bind m (fun x => k))
  (at level 61, m at next level, right associativity) : svm_scope.

Definition await_fetchMint {World} (node : Node World) (rpc : Rpc) (mint : string)
  : M World Mint :=
  fun w => let (r, w') := fetchMint node rpc mint w in (r, w', [EFetchMint rpc mint r]).

Definition await_estimateComputeUnitLimit {World} (node : Node World) (rpc : Rpc)
    (tx : TransactionMessage) : M World Z :=
  fun w => let (r, w') := estimateComputeUnitLimit node rpc tx w in
           (r, w', [EEstimateComputeUnitLimit rpc tx r]).

Definition await_getLatestBlockhash {World} (node : Node World) (rpc : Rpc)
  : M World Blockhash :=
  fun w => let (r, w') := getLatestBlockhash node rpc w in
           (r, w', [EGetLatestBlockhash rpc r]).

Definition await_sign {World} (node : Node World) (tx : TransactionMessage)
  : M World SignedTransaction :=
  fun w => let (r, w') := partiallySignTransactionMessageWithSigners node tx w in
           (r, w', [ESign tx r]).

Local Open Scope svm_scope.

Definition createTransferInstructions {World} (sdk : Sdk) (lib : Lib) (node : Node World)
    (client : TransactionSigner) (paymentRequirements : PaymentRequirements)
    (config : option X402Config) : M World (list Instruction) :=
  let asset := asset paymentRequirements in
  let amount := maxAmountRequired paymentRequirements in
  let payTo := payTo paymentRequirements in
  rpc <- lift (getRpcClient sdk (network paymentRequirements) (rpcUrlOf config));;
  tokenMint <- await_fetchMint node rpc asset;;
  let tokenProgramAddress := programAddress tokenMint in
  (* validate that the asset was created by a known token program *)
  if negb (tokenProgramAddress =? TOKEN_PROGRAM_ADDRESS sdk)%string
     && negb (tokenProgramAddress =? TOKEN_2022_PROGRAM_ADDRESS sdk)%string
  then lift (Throw (Error "Asset was not created by a known token program"))
  else
    sourceATA <-
      lift (findAssociatedTokenPda sdk asset (address client) tokenProgramAddress);;
    destinationATA <-
      lift (findAssociatedTokenPda sdk asset payTo tokenProgramAddress);;
    amount' <- lift (BigInt lib amount);;
    ret [TransferChecked sourceATA asset destinationATA client amount'
           (decimals tokenMint) tokenProgramAddress].

Definition createTransferTransactionMessage {World} (sdk : Sdk) (lib : Lib)
    (node : Node World) (client : TransactionSigner)
    (paymentRequirements : PaymentRequirements) (config : option X402Config)
  : M World TransactionMessage :=
  rpc <- lift (getRpcClient sdk (network paymentRequirements) (rpcUrlOf config));;
  (* create the transfer instruction *)
  transferInstructions <-
    createTransferInstructions sdk lib node client paymentRequirements config;;
  (* create tx to simulate *)
  let feePayer := feePayer paymentRequirements in
  let txToSimulate :=
    [CreateTransactionMessage 0;
     SetComputeUnitPrice 1;
     SetFeePayer feePayer;
     AppendInstructions transferInstructions] in
  (* estimate the compute budget limit *)
  estimatedUnits <- await_estimateComputeUnitLimit node rpc txToSimulate;;
  (* finalize the transaction message *)
  latestBlockhash <- await_getLatestBlockhash node rpc;;
  ret (txToSimulate ++
       [PrependInstruction (SetComputeUnitLimit estimatedUnits);
        SetLifetimeUsingBlockhash latestBlockhash]).

Definition createAndSignPayment {World} (sdk : Sdk) (lib : Lib) (node : Node World)
    (client : TransactionSigner) (x402Version : Z)
    (paymentRequirements : PaymentRequirements) (config : option X402Config)
  : M World PaymentPayload :=
  transactionMessage <-
    createTransferTransactionMessage sdk lib node client paymentRequirements config;;
  signedTransaction <- await_sign node transactionMessage;;
  let base64EncodedWireTransaction :=
    getBase64EncodedWireTransaction sdk signedTransaction in
  ret {| payload_scheme := scheme paymentRequirements;
         payload_network := network paymentRequirements;
         x402Version := x402Version;
         transaction := base64EncodedWireTransaction |}.

Definition createPaymentHeader {World} (sdk : Sdk) (lib : Lib) (node : Node World)
    (client : TransactionSigner) (x402Version : Z)
    (paymentRequirements : PaymentRequirements) (config : option X402Config)
  : M World string :=
  paymentPayload <-
    createAndSignPayment sdk lib node client x402Version paymentRequirements config;;
  ret (encodePayment sdk paymentPayload).

(** Whether an event is a signature. *)
Definition isSign (e : Event) : bool :=
  match e with
  | ESign _ _ => true
  | _ => false
  end.

(** A concrete SDK and node, to run the client. *)
Definition demoSdk : Sdk :=
  {| getRpcClient := fun network url =>
       if (network =? "solana-devnet")%string
       then Ret (match url with Some u => u | None => "https://api.devnet.solana.com" end)
       else Throw (Error "Invalid network");
     TOKEN_PROGRAM_ADDRESS := "TokenkegQfeZyiNwAJbNbGKPFXCWuBvf9Ss623VQ5DA";
     TOKEN_2022_PROGRAM_ADDRESS := "TokenzQdBNbLqP5VEhdkAS6EPFLC1PHnBqCXEpPxuEb";
     findAssociatedTokenPda := fun mint owner program =>
       Ret (append "ata:" (append owner (append ":" mint)));
     getBase64EncodedWireTransaction := fun signed => append "base64:" signed;
     encodePayment := fun payload => append "header:" (transaction payload) |}.

(** The world of the demonstration: the program that owns the mint. *)
Definition demoNode : Node string :=
  {| fetchMint := fun _ _ owner => (Ret {| programAddress := owner; decimals := 6 |}, owner);
     estimateComputeUnitLimit := fun _ _ w => (Ret 6500, w);
     getLatestBlockhash := fun _ w =>
       (Ret {| blockhash := "hash"; lastValidBlockHeight := 1000 |}, w);
     partiallySignTransactionMessageWithSigners := fun _ w => (Ret "signed", w) |}.

Definition demoClient : TransactionSigner := {| address := "payer" |}.

Definition demoRequirements : PaymentRequirements :=
  {| scheme := "exact";
     network := "solana-devnet";
     maxAmountRequired := "2500";
     payTo := "merchant";
     asset := "usdc-mint";
     feePayer := Some "facilitator" |}.

End Svm.

(** ** The test-suite of the facilitator

    The mocks and the payload factory of the tests of [verify] and [settle],
    to state what the tests check for all the values of their parameters. *)

From Stdlib Require DecimalString DecimalZ DecimalPos.

Module Mock.

(** [n.toString()] for an integer, and [BigInt] on the strings that are
    decimal integers (other strings are refused here). *)
Definition toString (z : Z) : string :=
  DecimalString.NilZero.string_of_int (Z.to_int z).

Definition BigInt (s : string) : outcome Z :=
  match DecimalString.NilZero.int_of_string s with
  | Some d => Ret (Z.of_int d)
  | None => Throw (Error "SyntaxError")
  end.

(** [s.includes(searchString)] *)
Fixpoint includes (searchString s : string) : bool :=
  prefix searchString s
  || match s with
     | EmptyString => false
     | String _ s' => includes searchString s'
     end.

(** ["0".repeat(count)] *)
Fixpoint zeros (count : nat) : string :=
  match count with
  | O => EmptyString
  | S n => String "0" (zeros n)
  end.

(** Whether a character occurs in a string. *)
Fixpoint hasChar (c : ascii) (s : string) : bool :=
  match s with
  | EmptyString => false
  | String c' s' => Ascii.eqb c c' || hasChar c s'
  end.

(** The mock of [parseErc6492Signature]: a signature that contains the
    marker counts as wrapped. *)
Definition parseErc6492Signature (sig : string) : outcome Erc6492.t :=
  if includes "EIP6492" sig
  then Ret {| Erc6492.signature := sig;
              Erc6492.address := Some "0xFactoryAddress000000000000000000000000";
              Erc6492.data := Some "0xfactoryCa11data" |}
  else Ret {| Erc6492.signature := sig;
              Erc6492.address := None;
              Erc6492.data := None |}.

(** The library under the mocks: [getNetworkId] always answers 84532 and the
    parser of signatures answers what the test has set.  The hash and the
    configuration of chain 84532 are not mocked: they are the real ones,
    whatever they are. *)
Definition lib (hash : string -> list Z) (chain : ChainConfig.t)
    (parsedSig : Signature.t) : Lib :=
  mkLib (fun _ => Ret 84532)
        (fun chainId => if chainId =? 84532 then Some chain else None)
        BigInt
        hash
        parseErc6492Signature
        (fun _ => Ret parsedSig).

(** The default answer of the mock of [parseSignature]. *)
Definition parsedSignature : Signature.t :=
  {| Signature.r := "0x1234567890abcdef1234567890abcdef1234567890abcdef1234567890abcdef";
     Signature.s := "0xabcdef1234567890abcdef1234567890abcdef1234567890abcdef1234567890";
     Signature.v := Some 27;
     Signature.yParity := 0 |}.

Definition mockPaymentRequirements : PaymentRequirements.t :=
  {| PaymentRequirements.scheme := "exact";
     PaymentRequirements.network := "base-sepolia";
     PaymentRequirements.maxAmountRequired := "1000000";
     PaymentRequirements.payTo := "0x1234567890123456789012345678901234567890";
     PaymentRequirements.asset := "0x036CbD53842c5426634e7929541eC2318f3dCF7e";
     PaymentRequirements.extra := None |}.

Definition baseSignature : string :=
  "0x1234567890abcdef1234567890abcdef1234567890abcdef1234567890abcdef1234567890abcdef1234567890abcdef1234567890abcdef1234567890abcdef1b".

(** The signature [createMockPayload] builds. *)
Definition mockSignature (signatureLength : Z) (isEip6492 : bool) : string :=
  let signature :=
    if signatureLength >? 130
    then append baseSignature (zeros (Z.to_nat (signatureLength - 130)))
    else baseSignature in
  if isEip6492 then append signature "EIP6492" else signature.

(** [createMockPayload]; [now1] and [now2] are the readings of the clock for
    validAfter and for validBefore. *)
Definition createMockPayload (now1 now2 : Z) (signatureLength : Z) (from : string)
    (isEip6492 : bool) : PaymentPayload.t :=
  {| PaymentPayload.x402Version := 1;
     PaymentPayload.scheme := "exact";
     PaymentPayload.network := "base-sepolia";
     PaymentPayload.payload :=
       {| ExactEvmPayload.signature := mockSignature signatureLength isEip6492;
          ExactEvmPayload.authorization :=
            {| Authorization.from := from;
               Authorization.to := PaymentRequirements.payTo mockPaymentRequirements;
               Authorization.value :=
                 PaymentRequirements.maxAmountRequired mockPaymentRequirements;
               Authorization.validAfter := toString (seconds now1 - 600);
               Authorization.validBefore := toString (seconds now2 + 300);
               Authorization.nonce := "0x1234567890abcdef" |} |} |}.

(** The world of the tests is the clock: the readings to come. *)
Definition World : Type := list Z.

Definition Date_now (w : World) : Z * World :=
  match w with
  | [] => (0, [])
  | t :: rest => (t, rest)
  end.

(** [createMockWallet(bytecode)], with the mocks of [getVersion] and
    [getERC20Balance]; [createMockClient(bytecode)] is the same without the
    two calls that [verify] does not make. *)
Definition createMockWallet (bytecode : option string) : Client World :=
  mkClient World
    (fun w => (Ret "2", w))
    (fun _ w => (Ret true, w))
    Date_now
    (fun _ _ w => (Ret 2000000, w))
    (fun _ w => (Ret bytecode, w))
    (fun _ w => (Ret "0xtxhash", w))
    (fun _ w => (Ret {| Receipt.status := success |}, w)).

End Mock.

(** ** Further vocabulary: requirements and reasons *)

(** The requirements with another [payTo], everything else kept. *)
Definition withPayTo (r : PaymentRequirements.t) (payTo : string) : PaymentRequirements.t :=
  {| PaymentRequirements.scheme := PaymentRequirements.scheme r;
     PaymentRequirements.network := PaymentRequirements.network r;
     PaymentRequirements.maxAmountRequired := PaymentRequirements.maxAmountRequired r;
     PaymentRequirements.payTo := payTo;
     PaymentRequirements.asset := PaymentRequirements.asset r;
     PaymentRequirements.extra := PaymentRequirements.extra r |}.

(** The reasons that [verify] gives, in the order of its checks. *)
Definition verifyReasons : list ErrorReason :=
  [unsupported_scheme;
   invalid_network;
   invalid_exact_evm_payload_signature;
   invalid_exact_evm_payload_recipient_mismatch;
   invalid_exact_evm_payload_authorization_valid_before;
   invalid_exact_evm_payload_authorization_valid_after;
   insufficient_funds;
   invalid_exact_evm_payload_authorization_value;
   invalid_exact_evm_payload_undeployed_smart_wallet].

(** ** Proof automation *)

Ltac unfold_monad :=
  unfold bind, try_catch, ret, lift, await_getVersion, await_verifyTypedData,
    call_Date_now, await_getERC20Balance, await_getCode, await_writeContract,
    await_waitForTransactionReceipt in *.

Ltac innermost x :=
  lazymatch x with
  | context [match _ with _ => _ end] => fail
  | _ => idtac
  end.

Ltac tidy :=
  repeat match goal with
    | H : _ /\ _ |- _ => destruct H
    | H : exists _, _ |- _ => destruct H
    | H : False |- _ => destruct H
    | H : _ \/ _ |- _ => destruct H
    | H : In _ (_ :: _) |- _ => simpl in H
    | H : In _ [] |- _ => destruct H
    | H : _ = _ |- _ => discriminate H
    | H : (_, _) = (_, _) |- _ => inversion H; clear H; subst
    | H : Ret _ = Ret _ |- _ => inversion H; clear H; subst
    | H : Throw _ = Throw _ |- _ => inversion H; clear H; subst
    | H : Some _ = Some _ |- _ => inversion H; clear H; subst
    | H : _ :: _ = _ :: _ |- _ => inversion H; clear H; subst
    | H : EGetVersion _ = EGetVersion _ |- _ => inversion H; clear H; subst
    | H : EVerifyTypedData _ _ = EVerifyTypedData _ _ |- _ => inversion H; clear H; subst
    | H : EDateNow _ = EDateNow _ |- _ => inversion H; clear H; subst
    | H : EGetERC20Balance _ _ _ = EGetERC20Balance _ _ _ |- _ =>
        inversion H; clear H; subst
    | H : EGetCode _ _ = EGetCode _ _ |- _ => inversion H; clear H; subst
    | H : EWriteContract _ _ = EWriteContract _ _ |- _ => inversion H; clear H; subst
    | H : EWaitForTransactionReceipt _ _ = EWaitForTransactionReceipt _ _ |- _ =>
        inversion H; clear H; subst
    end.

(** One case distinction on the scrutinee of an innermost [match] of a
    hypothesis: the next step of the run. *)
Ltac case_step :=
  match goal with
  | H : context [match ?x with _ => _ end] |- _ =>
      innermost x; destruct x eqn:?; simpl in H; tidy
  end.

(** All the runs of the computation in hypothesis [H]. *)
Ltac run_cases H := unfold_monad; simpl in H; tidy; repeat case_step.

(** The scheme test of [verify], as equations on the two schemes. *)
Ltac scheme_test :=
  repeat match goal with
    | H : negb (_ =? SCHEME)%string || negb (_ =? SCHEME)%string = false |- _ =>
        apply orb_false_elim in H; destruct H
    | H : negb (_ =? SCHEME)%string || negb (_ =? SCHEME)%string = true |- _ =>
        apply orb_true_iff in H
    | H : negb (_ =? SCHEME)%string = false |- _ =>
        apply negb_false_iff in H; apply String.eqb_eq in H
    | H : negb (_ =? SCHEME)%string = true |- _ =>
        apply negb_true_iff in H; apply String.eqb_neq in H
    end.

(** The comparisons of [verify], as propositions. *)
Ltac bool_to_prop :=
  repeat match goal with
    | H : (_ <? _) = true |- _ => apply Z.ltb_lt in H
    | H : (_ <? _) = false |- _ => apply Z.ltb_ge in H
    | H : (_ >? _) = true |- _ => rewrite Z.gtb_ltb in H
    | H : (_ >? _) = false |- _ => rewrite Z.gtb_ltb in H
    end.

(** The goals left by a case analysis: split, introduce, simplify. *)
Ltac crush :=
  scheme_test; bool_to_prop;
  repeat (repeat split; intros); simpl in *; tidy; scheme_test;
  try reflexivity; try congruence; try lia; try tauto.

(** ** The signature shape (C1) *)

Lemma signatureLength_prefixed (signature : string) :
  prefix "0x" signature = false ->
  signatureLength (append "0x" signature) = signatureLength signature.
Proof.
  intros Hp. unfold signatureLength. rewrite Hp.
  assert (Hq : prefix "0x" (append "0x" signature) = true)
    by (simpl; destruct signature; reflexivity).
  rewrite Hq. simpl length. lia.
Qed.

(** C1, as stated, fails: a compact signature of 64 bytes (128 hexadecimal
    characters) is classified EOA although its length is not 65 bytes, so
    EOA is not the class of the 65-byte signatures only. *)
Lemma C1_short_signature_is_EOA :
  classify Demo.compactSignature = EOA
  /\ byteLength Demo.compactSignature = Some 64
  /\ ~ (forall signature,
          classify signature = EOA <-> signatureLength signature = 130).
Proof.
  split; [reflexivity | split; [reflexivity | ]].
  intros H. specialize (H Demo.compactSignature).
  destruct H as [H _]. specialize (H eq_refl). discriminate H.
Qed.

(** C1 (amended): the classifier answers ContractWallet exactly when the
    signature has more than 130 hexadecimal characters (more than 65 bytes)
    once an optional 0x prefix is stripped, and EOA for every length up to
    130 characters, 65 bytes included; a signature without the prefix is
    classified as the same signature with it. *)
Theorem C1_signature_shape (signature : string) :
  (classify signature = ContractWallet <-> 130 < signatureLength signature)
  /\ (classify signature = EOA <-> signatureLength signature <= 130)
  /\ (signatureLength signature = 130 -> classify signature = EOA)
  /\ (prefix "0x" signature = false ->
      classify (append "0x" signature) = classify signature).
Proof.
  unfold classify, isSmartWallet.
  repeat split.
  - destruct (Z.gtb_spec (signatureLength signature) 130); [lia | discriminate].
  - intros H. destruct (Z.gtb_spec (signatureLength signature) 130); [reflexivity | lia].
  - destruct (Z.gtb_spec (signatureLength signature) 130); [discriminate | lia].
  - intros H. destruct (Z.gtb_spec (signatureLength signature) 130); [lia | reflexivity].
  - intros H. destruct (Z.gtb_spec (signatureLength signature) 130); [lia | reflexivity].
  - intros H. rewrite (signatureLength_prefixed _ H). reflexivity.
Qed.

(** The classification of a 65-byte and of a 100-byte signature, and of the
    latter without its prefix. *)
Lemma C1_signature_shape_witness :
  classify Demo.eoaSignature = EOA
  /\ classify Demo.walletSignature = ContractWallet
  /\ classify (append "0x" (substring_from 2 Demo.walletSignature))
     = classify (substring_from 2 Demo.walletSignature).
Proof.
  split; [ | split].
  - apply (proj1 (proj2 (proj2 (C1_signature_shape Demo.eoaSignature)))). reflexivity.
  - apply (proj1 (C1_signature_shape Demo.walletSignature)). reflexivity.
  - apply (proj2 (proj2 (proj2 (C1_signature_shape (substring_from 2 Demo.walletSignature))))).
    reflexivity.
Defined.

(** ** Failures of the external reads (C2) *)

(** C2, as stated, fails: when the balance query throws, [verify] returns no
    structured result; the exception of the query reaches the caller. *)
Lemma C2_balance_failure_escapes :
  let w := Demo.world (Throw (Error "RPC request failed")) [] in
  let run := verify Demo.lib Demo.client
               (Demo.paymentPayload Demo.eoaSignature Demo.goodAuthorization)
               Demo.paymentRequirements w in
  fst (fst run) = Throw (Error "RPC request failed")
  /\ ~ (exists res, fst (fst run) = Ret res).
Proof.
  split.
  - vm_compute. reflexivity.
  - intros [res H]. vm_compute in H. discriminate H.
Qed.

(** C2 (amended): [verify] either returns a structured result or lets the
    exception of the failing call reach the caller.  A failure of the network
    resolution (unknown network, chain without configuration) or of the
    on-chain version read is mapped to invalid_network; an exception thrown
    by the signature verification, the balance query or the bytecode query
    propagates unchanged; and no failed read ever yields a valid result. *)
Theorem C2_verify_read_failures {World} (lib : Lib) (c : Client World)
    (p : PaymentPayload.t) (r : PaymentRequirements.t) (w w' : World)
    (o : outcome VerifyResponse.t) (tr : list Event) :
  verify lib c p r w = (o, w', tr) ->
  (PaymentPayload.scheme p = SCHEME ->
   PaymentRequirements.scheme r = SCHEME ->
   (forall e, getNetworkId lib (PaymentPayload.network p) = Throw e ->
              rejects o invalid_network)
   /\ (forall id, getNetworkId lib (PaymentPayload.network p) = Ret id ->
                  extra_name r = None -> config lib id = None ->
                  rejects o invalid_network))
  /\ (forall e, In (EGetVersion (Throw e)) tr -> rejects o invalid_network)
  /\ (forall q e, In (EVerifyTypedData q (Throw e)) tr -> o = Throw e)
  /\ (forall a b e, In (EGetERC20Balance a b (Throw e)) tr -> o = Throw e)
  /\ (forall a e, In (EGetCode a (Throw e)) tr -> o = Throw e)
  /\ (accepts o ->
      forallb (fun ev => negb (readFailed ev)) tr = true
      /\ exists id, getNetworkId lib (PaymentPayload.network p) = Ret id)
  /\ (forall res, o = Ret res ->
      VerifyResponse.payer res
        = Authorization.from (ExactEvmPayload.authorization (PaymentPayload.payload p))
      /\ (VerifyResponse.isValid res = true <-> VerifyResponse.invalidReason res = None)).
Proof.
  intros H. unfold verify in H. run_cases H.
  all: unfold config_usdcName in *; repeat case_step.
  all: crush.
  all: try (eexists; reflexivity).
Qed.

Lemma run_eta {A B C : Type} (x : A * B * C) :
  x = (fst (fst x), snd (fst x), snd x).
Proof. destruct x as [[a b] c]. reflexivity. Qed.

(** A balance query that throws: the exception is the outcome of [verify]. *)
Lemma C2_verify_read_failures_witness :
  let w := Demo.world (Throw (Error "RPC request failed")) [] in
  let run := verify Demo.lib Demo.client
               (Demo.paymentPayload Demo.eoaSignature Demo.goodAuthorization)
               Demo.paymentRequirements w in
  In (EGetERC20Balance (PaymentRequirements.asset Demo.paymentRequirements) Demo.payer
        (Throw (Error "RPC request failed"))) (snd run)
  /\ fst (fst run) = Throw (Error "RPC request failed").
Proof.
  intros w run.
  assert (Hin : In (EGetERC20Balance (PaymentRequirements.asset Demo.paymentRequirements)
                      Demo.payer (Throw (Error "RPC request failed"))) (snd run))
    by (vm_compute; tauto).
  split; [exact Hin | ].
  destruct (C2_verify_read_failures _ _ _ _ _ _ _ _ (run_eta run))
    as (_ & _ & _ & Hbalance & _).
  exact (Hbalance _ _ _ Hin).
Defined.

(** ** The deadline checks (C3) *)

(** C3: once the deadline checks are reached (the clock is read), [verify]
    rejects with the valid-before reason exactly when validBefore, as an
    integer, is below the clock reading plus 6 seconds; and when the
    valid-after check is reached (the clock is read again), it rejects with
    the valid-after reason exactly when validAfter is above that reading.
    An authorization that passes the first check and has an integer
    validAfter reaches the second. *)
Theorem C3_deadline_checks {World} (lib : Lib) (c : Client World)
    (p : PaymentPayload.t) (r : PaymentRequirements.t) (w w' : World)
    (o : outcome VerifyResponse.t) (tr : list Event) (now1 : Z) (later : list Z) :
  verify lib c p r w = (o, w', tr) ->
  clockReadings tr = now1 :: later ->
  let a := ExactEvmPayload.authorization (PaymentPayload.payload p) in
  exists validBefore,
    BigInt lib (Authorization.validBefore a) = Ret validBefore
    /\ (rejects o invalid_exact_evm_payload_authorization_valid_before
        <-> validBefore < seconds now1 + 6)
    /\ (validBefore < seconds now1 + 6 -> later = [])
    /\ (seconds now1 + 6 <= validBefore ->
        forall validAfter, BigInt lib (Authorization.validAfter a) = Ret validAfter ->
        exists now2, later = [now2])
    /\ (forall now2 later', later = now2 :: later' ->
        exists validAfter,
          BigInt lib (Authorization.validAfter a) = Ret validAfter
          /\ (rejects o invalid_exact_evm_payload_authorization_valid_after
              <-> validAfter > seconds now2)).
Proof.
  intros H Hclock. unfold verify in H. run_cases H.
  all: simpl in Hclock; tidy.
  all: eexists; split; [reflexivity | ].
  all: crush.
  all: try (eexists; reflexivity).
  all: try (eexists; split; [reflexivity | ]); crush.
Qed.

(** The two boundaries, with the clock at 1700000000 seconds: validBefore five
    seconds ahead is rejected, six seconds ahead passes, and validAfter equal
    to the clock passes. *)
Lemma C3_deadline_checks_witness :
  let asset := Demo.world (Ret 2000000) [] in
  let run5 := verify Demo.lib Demo.client
                (Demo.paymentPayload Demo.eoaSignature
                   (Demo.authorization Demo.payTo "1000000" "1700000000" "1700000005"))
                Demo.paymentRequirements asset in
  let run6 := verify Demo.lib Demo.client
                (Demo.paymentPayload Demo.eoaSignature
                   (Demo.authorization Demo.payTo "1000000" "1700000000" "1700000006"))
                Demo.paymentRequirements asset in
  clockReadings (snd run5) = [1700000000000]
  /\ rejects (fst (fst run5)) invalid_exact_evm_payload_authorization_valid_before
  /\ clockReadings (snd run6) = [1700000000000; 1700000000400]
  /\ ~ rejects (fst (fst run6)) invalid_exact_evm_payload_authorization_valid_before
  /\ ~ rejects (fst (fst run6)) invalid_exact_evm_payload_authorization_valid_after.
Proof.
  intros asset run5 run6.
  assert (H5 : clockReadings (snd run5) = [1700000000000]) by (vm_compute; reflexivity).
  assert (H6 : clockReadings (snd run6) = [1700000000000; 1700000000400])
    by (vm_compute; reflexivity).
  destruct (C3_deadline_checks _ _ _ _ _ _ _ _ _ _ (run_eta run5) H5)
    as (vb5 & E5 & Hiff5 & _).
  destruct (C3_deadline_checks _ _ _ _ _ _ _ _ _ _ (run_eta run6) H6)
    as (vb6 & E6 & Hiff6 & _ & _ & Hafter).
  destruct (Hafter _ _ eq_refl) as (va6 & Ea6 & Hiffa6).
  vm_compute in E5. vm_compute in E6. vm_compute in Ea6.
  inversion E5; subst vb5. inversion E6; subst vb6. inversion Ea6; subst va6.
  split; [exact H5 | split; [ | split; [exact H6 | split]]].
  - apply Hiff5. reflexivity.
  - intros Hr. apply Hiff6 in Hr. vm_compute in Hr. discriminate Hr.
  - intros Hr. apply Hiffa6 in Hr. vm_compute in Hr. discriminate Hr.
Defined.

(** ** The order of the checks (C4) *)

(** C4: [verify] makes its reads in one fixed order and stops at the first
    failing check: the reads of a run are an initial segment of that order,
    and when a reason is reported exactly the reads of the checks up to the
    one that failed have been made.  A scheme mismatch is reported before
    anything is read, and a signature that does not verify before any later
    check.  When the balance read is below maxAmountRequired the result is
    insufficient_funds whatever authorization.value is, also when it is below
    maxAmountRequired too; when the balance suffices and authorization.value
    is below maxAmountRequired the result is
    invalid_exact_evm_payload_authorization_value. *)
Theorem C4_check_order {World} (lib : Lib) (c : Client World)
    (p : PaymentPayload.t) (r : PaymentRequirements.t) (w w' : World)
    (o : outcome VerifyResponse.t) (tr : list Event) :
  verify lib c p r w = (o, w', tr) ->
  let a := ExactEvmPayload.authorization (PaymentPayload.payload p) in
  (exists n, reads tr = firstn n readOrder)
  /\ (forall reason, rejects o reason ->
      reads tr = firstn (readsBefore reason) readOrder)
  /\ ((PaymentPayload.scheme p <> SCHEME \/ PaymentRequirements.scheme r <> SCHEME) ->
      rejects o unsupported_scheme /\ tr = [])
  /\ (forall q, In (EVerifyTypedData q (Ret false)) tr ->
      rejects o invalid_exact_evm_payload_signature)
  /\ (forall erc20Address address balance maxAmountRequired,
      In (EGetERC20Balance erc20Address address (Ret balance)) tr ->
      BigInt lib (PaymentRequirements.maxAmountRequired r) = Ret maxAmountRequired ->
      (balance < maxAmountRequired -> rejects o insufficient_funds)
      /\ (maxAmountRequired <= balance ->
          forall value, BigInt lib (Authorization.value a) = Ret value ->
          value < maxAmountRequired ->
          rejects o invalid_exact_evm_payload_authorization_value)).
Proof.
  intros H. unfold verify in H. run_cases H.
  all: crush.
  all: try (first [ exists 0%nat; reflexivity | exists 1%nat; reflexivity
                  | exists 2%nat; reflexivity | exists 3%nat; reflexivity
                  | exists 4%nat; reflexivity | exists 5%nat; reflexivity ]).
Qed.

(** An authorization whose value is too low: with a low balance the reason
    is insufficient_funds, after four reads; with a sufficient balance it is
    the value reason. *)
Lemma C4_check_order_witness :
  let a := Demo.authorization Demo.payTo "1" "1699999400" "1700000300" in
  let low := verify Demo.lib Demo.client (Demo.paymentPayload Demo.eoaSignature a)
               Demo.paymentRequirements (Demo.world (Ret 500000) []) in
  let enough := verify Demo.lib Demo.client (Demo.paymentPayload Demo.eoaSignature a)
                  Demo.paymentRequirements (Demo.world (Ret 2000000) []) in
  rejects (fst (fst low)) insufficient_funds
  /\ reads (snd low) = [KVerifyTypedData; KDateNow; KDateNow; KGetERC20Balance]
  /\ rejects (fst (fst enough)) invalid_exact_evm_payload_authorization_value.
Proof.
  intros a low enough.
  assert (Hlow : In (EGetERC20Balance (PaymentRequirements.asset Demo.paymentRequirements)
                       Demo.payer (Ret 500000)) (snd low)) by (vm_compute; tauto).
  assert (Henough : In (EGetERC20Balance (PaymentRequirements.asset Demo.paymentRequirements)
                          Demo.payer (Ret 2000000)) (snd enough)) by (vm_compute; tauto).
  destruct (C4_check_order _ _ _ _ _ _ _ _ (run_eta low)) as (_ & Hreads & _ & _ & Hbal).
  destruct (C4_check_order _ _ _ _ _ _ _ _ (run_eta enough)) as (_ & _ & _ & _ & Hbal').
  destruct (Hbal _ _ _ 1000000 Hlow eq_refl) as [Hfunds _].
  destruct (Hbal' _ _ _ 1000000 Henough eq_refl) as [_ Hvalue].
  assert (Hr : rejects (fst (fst low)) insufficient_funds)
    by (apply Hfunds; reflexivity).
  split; [exact Hr | split].
  - exact (Hreads _ Hr).
  - apply (Hvalue ltac:(discriminate) 1 eq_refl). reflexivity.
Defined.

(** ** The recipient check (C5) *)

Lemma toLowerCaseChar_toUpperCaseChar (c : ascii) :
  toLowerCaseChar (toUpperCaseChar c) = toLowerCaseChar c.
Proof. destruct c as [[] [] [] [] [] [] [] []]; reflexivity. Qed.

Lemma toLowerCaseChar_idempotent (c : ascii) :
  toLowerCaseChar (toLowerCaseChar c) = toLowerCaseChar c.
Proof. destruct c as [[] [] [] [] [] [] [] []]; reflexivity. Qed.

Lemma toLowerCase_idempotent (s : string) :
  toLowerCase (toLowerCase s) = toLowerCase s.
Proof.
  induction s as [ | c s IH]; simpl.
  - reflexivity.
  - rewrite toLowerCaseChar_idempotent, IH. reflexivity.
Qed.

(** The checksum only changes the case of the characters. *)
Lemma toLowerCase_checksumChars (hash : list Z) (s : string) :
  forall i, toLowerCase (checksumChars hash i s) = toLowerCase s.
Proof.
  induction s as [ | c s IH]; intros i; simpl.
  - reflexivity.
  - rewrite IH. f_equal.
    destruct ((i <? 40)%nat && (8 <=? _)); [apply toLowerCaseChar_toUpperCaseChar | reflexivity].
Qed.

Lemma isAddress_prefixed (address : string) :
  isAddress address = true ->
  exists rest, address = String "0" (String "x" rest).
Proof.
  destruct address as [ | c1 [ | c2 rest]]; try discriminate.
  - destruct c1 as [[] [] [] [] [] [] [] []]; discriminate.
  - destruct c1 as [[] [] [] [] [] [] [] []]; try discriminate.
    destruct c2 as [[] [] [] [] [] [] [] []]; try discriminate.
    intros _. exists rest. reflexivity.
Qed.

Lemma toLowerCase_checksumAddress (lib : Lib) (address : string) :
  isAddress address = true ->
  toLowerCase (checksumAddress lib address) = toLowerCase address.
Proof.
  intros H. destruct (isAddress_prefixed _ H) as [rest ->].
  unfold checksumAddress. simpl substring_from.
  change (toLowerCase (String "0" (String "x" rest)))
    with (String "0" (String "x" (toLowerCase rest))).
  change (append "0x" ?s) with (String "0" (String "x" s)).
  change (toLowerCase (String "0" (String "x" ?s)))
    with (String "0" (String "x" (toLowerCase s))).
  rewrite toLowerCase_checksumChars, toLowerCase_idempotent. reflexivity.
Qed.

(** Two well-formed addresses have the same normal form exactly when they
    are the same address, that is, equal up to the case of the letters. *)
Lemma checksumAddress_eq_iff (lib : Lib) (a b : string) :
  isAddress a = true -> isAddress b = true ->
  (checksumAddress lib a = checksumAddress lib b <-> toLowerCase a = toLowerCase b).
Proof.
  intros Ha Hb. split; intros H.
  - rewrite <- (toLowerCase_checksumAddress lib a Ha),
            <- (toLowerCase_checksumAddress lib b Hb), H.
    reflexivity.
  - destruct (isAddress_prefixed _ Ha) as [ra ->].
    destruct (isAddress_prefixed _ Hb) as [rb ->].
    unfold checksumAddress. simpl substring_from.
    change (toLowerCase (String "0" (String "x" ?s)))
      with (String "0" (String "x" (toLowerCase s))) in H.
    inversion H as [H']. rewrite H'. reflexivity.
Qed.

(** C5: when the recipient check is reached (the signature verified) on two
    well-formed addresses, [verify] answers
    invalid_exact_evm_payload_recipient_mismatch if the [to] of the
    authorization and the [payTo] of the requirements are different
    addresses, and makes no further read; if they differ at most in the case
    of their letters the check passes: that reason is not reported and
    verification goes on to the deadline checks. *)
Theorem C5_recipient_check {World} (lib : Lib) (c : Client World)
    (p : PaymentPayload.t) (r : PaymentRequirements.t) (w w' : World)
    (o : outcome VerifyResponse.t) (tr : list Event) (q : TypedData.t) :
  verify lib c p r w = (o, w', tr) ->
  In (EVerifyTypedData q (Ret true)) tr ->
  let a := ExactEvmPayload.authorization (PaymentPayload.payload p) in
  isAddress (Authorization.to a) = true ->
  isAddress (PaymentRequirements.payTo r) = true ->
  (toLowerCase (Authorization.to a) <> toLowerCase (PaymentRequirements.payTo r) ->
   rejects o invalid_exact_evm_payload_recipient_mismatch
   /\ reads tr = [KVerifyTypedData])
  /\ (toLowerCase (Authorization.to a) = toLowerCase (PaymentRequirements.payTo r) ->
      ~ rejects o invalid_exact_evm_payload_recipient_mismatch
      /\ (forall validBefore,
          BigInt lib (Authorization.validBefore a) = Ret validBefore ->
          exists now1 later, clockReadings tr = now1 :: later)).
Proof.
  intros H Hin a Hto HpayTo.
  pose proof (checksumAddress_eq_iff lib _ _ Hto HpayTo) as Hsame.
  unfold verify, getAddress in H. fold a in H.
  rewrite Hto, HpayTo in H. simpl negb in H.
  remember (checksumAddress lib (Authorization.to a)) as to_ eqn:Eto in *.
  remember (checksumAddress lib (PaymentRequirements.payTo r)) as payTo_ eqn:EpayTo in *.
  clear Eto EpayTo Hto HpayTo.
  run_cases H.
  all: repeat match goal with
         | E : negb (_ =? _)%string = true |- _ =>
             apply negb_true_iff in E; apply String.eqb_neq in E
         | E : negb (_ =? _)%string = false |- _ =>
             apply negb_false_iff in E; apply String.eqb_eq in E
         end.
  all: crush.
  all: try (do 2 eexists; reflexivity).
  all: try (intros [? ?]; congruence).
Qed.

(** A payment to another address is a mismatch; a payment to the address of
    the requirements written in upper case goes on to the deadline checks. *)
Lemma C5_recipient_check_witness :
  let w := Demo.world (Ret 2000000) [] in
  let toStranger := Demo.authorization Demo.stranger "1000000" "1699999400" "1700000300" in
  let toMerchant :=
    Demo.authorization Demo.merchantUpperCase "1000000" "1699999400" "1700000300" in
  let other := verify Demo.lib Demo.client
                 (Demo.paymentPayload Demo.eoaSignature toStranger)
                 (Demo.paymentRequirementsTo Demo.merchant) w in
  let same := verify Demo.lib Demo.client
                (Demo.paymentPayload Demo.eoaSignature toMerchant)
                (Demo.paymentRequirementsTo Demo.merchant) w in
  rejects (fst (fst other)) invalid_exact_evm_payload_recipient_mismatch
  /\ ~ rejects (fst (fst same)) invalid_exact_evm_payload_recipient_mismatch
  /\ (exists now1 later, clockReadings (snd same) = now1 :: later).
Proof.
  intros w toStranger toMerchant other same.
  assert (Hother : In (EVerifyTypedData (Demo.typedData Demo.eoaSignature toStranger)
                         (Ret true)) (snd other)) by (vm_compute; tauto).
  assert (Hsame : In (EVerifyTypedData (Demo.typedData Demo.eoaSignature toMerchant)
                        (Ret true)) (snd same)) by (vm_compute; tauto).
  destruct (C5_recipient_check _ _ _ _ _ _ _ _ _ (run_eta other) Hother eq_refl eq_refl)
    as [Hdiffer _].
  destruct (C5_recipient_check _ _ _ _ _ _ _ _ _ (run_eta same) Hsame eq_refl eq_refl)
    as [_ Hequal].
  destruct (Hequal eq_refl) as [Hpass Hgoes].
  split; [ | split].
  - apply Hdiffer. vm_compute. discriminate.
  - exact Hpass.
  - exact (Hgoes 1700000300 eq_refl).
Defined.

(** ** What [verify] does not do, and its wallet check *)

Lemma bind_inv {World A B : Type} (m : M World A) (f : A -> M World B)
    (w w' : World) (o : outcome B) (tr : list Event) :
  bind m f w = (o, w', tr) ->
  (exists e, m w = (Throw e, w', tr) /\ o = Throw e)
  \/ (exists a w1 t1 t2,
        m w = (Ret a, w1, t1) /\ f a w1 = (o, w', t2) /\ tr = t1 ++ t2).
Proof.
  unfold bind. intros H.
  destruct (m w) as [[[a | e] w1] t1].
  - destruct (f a w1) as [[o2 w2] t2] eqn:Hf. inversion H; subst.
    right. exists a, w1, t1, t2. auto.
  - inversion H; subst. left. exists e. auto.
Qed.

(** [verify] only reads. *)
Lemma verify_no_write {World} (lib : Lib) (c : Client World)
    (p : PaymentPayload.t) (r : PaymentRequirements.t) (w w' : World)
    (o : outcome VerifyResponse.t) (tr : list Event) :
  verify lib c p r w = (o, w', tr) ->
  existsb isWrite tr = false.
Proof.
  intros H. unfold verify in H. run_cases H.
  all: reflexivity.
Qed.

(** The bytecode is read by [verify] only for the payer of a signature of
    the contract-wallet shape, and the answer decides the result. *)
Lemma verify_wallet_check {World} (lib : Lib) (c : Client World)
    (p : PaymentPayload.t) (r : PaymentRequirements.t) (w w' : World)
    (o : outcome VerifyResponse.t) (tr : list Event)
    (address : string) (bytecode : option string) :
  verify lib c p r w = (o, w', tr) ->
  In (EGetCode address (Ret bytecode)) tr ->
  let payload := PaymentPayload.payload p in
  let from := Authorization.from (ExactEvmPayload.authorization payload) in
  let valid := {| VerifyResponse.isValid := true;
                  VerifyResponse.invalidReason := None;
                  VerifyResponse.payer := from |} in
  address = from
  /\ isSmartWallet (ExactEvmPayload.signature payload) = true
  /\ (noBytecode bytecode = false -> o = Ret valid)
  /\ (noBytecode bytecode = true ->
      forall erc6492Data,
        parseErc6492Signature lib (ExactEvmPayload.signature payload) = Ret erc6492Data ->
        (hasDeploymentInfo erc6492Data = true -> o = Ret valid)
        /\ (hasDeploymentInfo erc6492Data = false ->
            o = Ret {| VerifyResponse.isValid := false;
                       VerifyResponse.invalidReason :=
                         Some invalid_exact_evm_payload_undeployed_smart_wallet;
                       VerifyResponse.payer := from |})).
Proof.
  intros H Hin. unfold verify in H. run_cases H.
  all: repeat match goal with
         | E : negb _ = true |- _ => apply negb_true_iff in E
         | E : negb _ = false |- _ => apply negb_false_iff in E
         end.
  all: repeat (repeat split; intros); tidy; try reflexivity; try congruence.
Qed.

(** ** Settlement after a failed verification (C6) *)

(** C6: when the verification that [settle] runs first returns isValid =
    false, [settle] returns a failure at once: it makes no call after those
    of the verification, none of which is a submission, and its errorReason
    is the invalidReason of the verification, or invalid_scheme when that is
    absent. *)
Theorem C6_settle_after_failed_verification {World} (lib : Lib) (c : Client World)
    (p : PaymentPayload.t) (r : PaymentRequirements.t) (w w1 : World)
    (valid : VerifyResponse.t) (tr1 : list Event) :
  verify lib c p r w = (Ret valid, w1, tr1) ->
  VerifyResponse.isValid valid = false ->
  settle lib c p r w =
    (Ret {| SettleResponse.success := false;
            SettleResponse.errorReason :=
              Some (reasonOrInvalidScheme (VerifyResponse.invalidReason valid));
            SettleResponse.transaction := "";
            SettleResponse.network := PaymentPayload.network p;
            SettleResponse.payer :=
              Authorization.from
                (ExactEvmPayload.authorization (PaymentPayload.payload p)) |},
     w1, tr1)
  /\ existsb isWrite tr1 = false
  /\ (forall reason, VerifyResponse.invalidReason valid = Some reason ->
      reasonOrInvalidScheme (VerifyResponse.invalidReason valid) = reason)
  /\ (VerifyResponse.invalidReason valid = None ->
      reasonOrInvalidScheme (VerifyResponse.invalidReason valid) = invalid_scheme).
Proof.
  intros Hv Hinvalid. split; [ | split; [ | split]].
  - unfold settle, bind at 1. rewrite Hv, Hinvalid. simpl.
    unfold ret. rewrite app_nil_r. reflexivity.
  - exact (verify_no_write _ _ _ _ _ _ _ _ Hv).
  - intros reason E. rewrite E. reflexivity.
  - intros E. rewrite E. reflexivity.
Qed.

(** A payer without funds: [settle] fails with insufficient_funds and submits
    nothing. *)
Lemma C6_settle_after_failed_verification_witness :
  let w := Demo.world (Ret 500000) [] in
  let payload := Demo.paymentPayload Demo.eoaSignature Demo.goodAuthorization in
  let verified := verify Demo.lib Demo.client payload Demo.paymentRequirements w in
  let settled := settle Demo.lib Demo.client payload Demo.paymentRequirements w in
  failsWith (fst (fst settled)) insufficient_funds
  /\ existsb isWrite (snd settled) = false.
Proof.
  intros w payload verified settled.
  destruct (C6_settle_after_failed_verification Demo.lib Demo.client payload
              Demo.paymentRequirements w (snd (fst verified))
              {| VerifyResponse.isValid := false;
                 VerifyResponse.invalidReason := Some insufficient_funds;
                 VerifyResponse.payer := Demo.payer |}
              (snd verified) eq_refl eq_refl)
    as (Hsettle & Hwrite & _).
  fold settled in Hsettle. rewrite Hsettle. simpl.
  split; [split; reflexivity | exact Hwrite].
Defined.

(** ** Undeployed contract wallets (C7, C8) *)

Lemma no_write_In (tr : list Event) (q : WriteContract.t) (res : outcome string) :
  existsb isWrite tr = false -> ~ In (EWriteContract q res) tr.
Proof.
  intros H Hin.
  assert (Ht : existsb isWrite tr = true)
    by (apply existsb_exists; exists (EWriteContract q res); split; [exact Hin | reflexivity]).
  congruence.
Qed.

(** The run of [settle]: the run of [verify], then the rest. *)
Ltac settle_inv H :=
  unfold settle in H; apply bind_inv in H;
  let e := fresh "e" in
  let valid := fresh "valid" in
  let w1 := fresh "w1" in
  let t1 := fresh "t1" in
  let t2 := fresh "t2" in
  let Hv := fresh "Hv" in
  let Hk := fresh "Hk" in
  let Ho := fresh "Ho" in
  let Htr := fresh "Htr" in
  destruct H as [(e & Hv & Ho) | (valid & w1 & t1 & t2 & Hv & Hk & Htr)];
  [ try discriminate Ho; try subst | try subst; cbv beta zeta in Hk ].

(** C7: for a signature of the contract-wallet shape that carries no
    deployment data, a payer whose bytecode is read empty makes [verify]
    return isValid = false with the reason
    invalid_exact_evm_payload_undeployed_smart_wallet, and a run of [settle]
    in which the bytecode is read empty submits nothing and fails with that
    reason. *)
Theorem C7_undeployed_wallet_without_deployment_data {World} (lib : Lib)
    (c : Client World) (p : PaymentPayload.t) (r : PaymentRequirements.t)
    (erc6492Data : Erc6492.t) :
  let signature := ExactEvmPayload.signature (PaymentPayload.payload p) in
  let from :=
    Authorization.from (ExactEvmPayload.authorization (PaymentPayload.payload p)) in
  isSmartWallet signature = true ->
  parseErc6492Signature lib signature = Ret erc6492Data ->
  hasDeploymentInfo erc6492Data = false ->
  (forall w w' o tr bytecode,
     verify lib c p r w = (o, w', tr) ->
     In (EGetCode from (Ret bytecode)) tr ->
     noBytecode bytecode = true ->
     o = Ret {| VerifyResponse.isValid := false;
                VerifyResponse.invalidReason :=
                  Some invalid_exact_evm_payload_undeployed_smart_wallet;
                VerifyResponse.payer := from |})
  /\ (forall w w' o tr bytecode,
        settle lib c p r w = (o, w', tr) ->
        In (EGetCode from (Ret bytecode)) tr ->
        noBytecode bytecode = true ->
        existsb isWrite tr = false
        /\ failsWith o invalid_exact_evm_payload_undeployed_smart_wallet).
Proof.
  intros signature from Hsw Hparse Hinfo.
  assert (Hverify : forall w w' o tr bytecode,
             verify lib c p r w = (o, w', tr) ->
             In (EGetCode from (Ret bytecode)) tr ->
             noBytecode bytecode = true ->
             o = Ret {| VerifyResponse.isValid := false;
                        VerifyResponse.invalidReason :=
                          Some invalid_exact_evm_payload_undeployed_smart_wallet;
                        VerifyResponse.payer := from |}).
  { intros w w' o tr bytecode H Hin Hempty.
    destruct (verify_wallet_check _ _ _ _ _ _ _ _ _ _ H Hin) as (_ & _ & _ & Hno).
    exact (proj2 (Hno Hempty _ Hparse) Hinfo). }
  split; [exact Hverify | ].
  intros w w' o tr bytecode H Hin Hempty.
  settle_inv H.
  - specialize (Hverify _ _ _ _ _ Hv Hin Hempty). discriminate Hverify.
  - pose proof (verify_no_write _ _ _ _ _ _ _ _ Hv) as Hnw.
    rewrite existsb_app, Hnw.
    apply in_app_or in Hin. destruct Hin as [Hin | Hin].
    + specialize (Hverify _ _ _ _ _ Hv Hin Hempty). inversion Hverify; subst valid.
      simpl in Hk. unfold ret in Hk. inversion Hk; subst.
      simpl. auto.
    + fold signature in Hk. rewrite Hsw in Hk.
      run_cases Hk.
      all: simpl; try (split; [reflexivity | split; reflexivity]).
      all: congruence.
Qed.

(** A 100-byte signature without deployment data, bytecode 0x. *)
Lemma C7_undeployed_wallet_without_deployment_data_witness :
  let w := Demo.world (Ret 2000000) [Ret (Some "0x")] in
  let payload := Demo.paymentPayload Demo.walletSignature Demo.goodAuthorization in
  let verified := verify Demo.lib Demo.client payload Demo.paymentRequirements w in
  let settled := settle Demo.lib Demo.client payload Demo.paymentRequirements w in
  rejects (fst (fst verified)) invalid_exact_evm_payload_undeployed_smart_wallet
  /\ existsb isWrite (snd settled) = false
  /\ failsWith (fst (fst settled)) invalid_exact_evm_payload_undeployed_smart_wallet.
Proof.
  intros w payload verified settled.
  destruct (C7_undeployed_wallet_without_deployment_data Demo.lib Demo.client payload
              Demo.paymentRequirements
              {| Erc6492.signature := Demo.walletSignature;
                 Erc6492.address := None;
                 Erc6492.data := None |}
              eq_refl eq_refl eq_refl) as [Hverify Hsettle].
  assert (Hv : In (EGetCode Demo.payer (Ret (Some "0x"))) (snd verified))
    by (vm_compute; tauto).
  assert (Hs : In (EGetCode Demo.payer (Ret (Some "0x"))) (snd settled))
    by (vm_compute; tauto).
  split.
  - rewrite (Hverify _ _ _ _ _ (run_eta verified) Hv eq_refl). split; reflexivity.
  - exact (Hsettle _ _ _ _ _ (run_eta settled) Hs eq_refl).
Defined.

(** C8: for a signature of the contract-wallet shape that carries deployment
    data, a payer whose bytecode is read empty still makes [verify] return
    isValid = true.  When the verification run by [settle] has accepted such
    a signature, [settle] fails with
    invalid_exact_evm_payload_undeployed_smart_wallet exactly when the
    bytecode it then reads is empty, and in that case it makes no other call.
    No run of [settle] deploys the wallet: the only transaction it ever
    submits is transferWithAuthorization on the asset. *)
Theorem C8_undeployed_wallet_with_deployment_data {World} (lib : Lib)
    (c : Client World) (p : PaymentPayload.t) (r : PaymentRequirements.t)
    (erc6492Data : Erc6492.t) :
  let signature := ExactEvmPayload.signature (PaymentPayload.payload p) in
  let from :=
    Authorization.from (ExactEvmPayload.authorization (PaymentPayload.payload p)) in
  isSmartWallet signature = true ->
  parseErc6492Signature lib signature = Ret erc6492Data ->
  hasDeploymentInfo erc6492Data = true ->
  (forall w w' o tr bytecode,
     verify lib c p r w = (o, w', tr) ->
     In (EGetCode from (Ret bytecode)) tr ->
     noBytecode bytecode = true ->
     o = Ret {| VerifyResponse.isValid := true;
                VerifyResponse.invalidReason := None;
                VerifyResponse.payer := from |})
  /\ (forall w w1 w2 valid tr1 bytecode,
        verify lib c p r w = (Ret valid, w1, tr1) ->
        VerifyResponse.isValid valid = true ->
        getCode c from w1 = (Ret bytecode, w2) ->
        (failsWith (fst (fst (settle lib c p r w)))
           invalid_exact_evm_payload_undeployed_smart_wallet
         <-> noBytecode bytecode = true)
        /\ (noBytecode bytecode = true ->
            settle lib c p r w =
              (Ret {| SettleResponse.success := false;
                      SettleResponse.errorReason :=
                        Some invalid_exact_evm_payload_undeployed_smart_wallet;
                      SettleResponse.transaction := "";
                      SettleResponse.network := PaymentPayload.network p;
                      SettleResponse.payer := from |},
               w2, tr1 ++ [EGetCode from (Ret bytecode)])
            /\ existsb isWrite (tr1 ++ [EGetCode from (Ret bytecode)]) = false))
  /\ (forall w w' o tr q res,
        settle lib c p r w = (o, w', tr) ->
        In (EWriteContract q res) tr ->
        WriteContract.functionName q = "transferWithAuthorization"
        /\ WriteContract.address q = PaymentRequirements.asset r).
Proof.
  intros signature from Hsw Hparse Hinfo.
  split; [ | split].
  - intros w w' o tr bytecode H Hin Hempty.
    destruct (verify_wallet_check _ _ _ _ _ _ _ _ _ _ H Hin) as (_ & _ & _ & Hno).
    exact (proj1 (Hno Hempty _ Hparse) Hinfo).
  - intros w w1 w2 valid tr1 bytecode Hv Hvalid Hcode.
    pose proof (verify_no_write _ _ _ _ _ _ _ _ Hv) as Hnw.
    destruct (settle lib c p r w) as [[o w'] tr] eqn:H.
    settle_inv H; [congruence | ].
    rewrite Hv in Hv0. inversion Hv0; subst valid0 w0 t1. clear Hv0.
    fold signature in Hk. fold from in Hk. rewrite Hsw, Hvalid in Hk.
    unfold_monad. simpl in Hk. rewrite Hcode in Hk.
    destruct (noBytecode bytecode) eqn:Hempty; simpl in Hk.
    + inversion Hk; subst. simpl.
      split; [split; auto | ].
      intros _. split; [reflexivity | ].
      rewrite existsb_app, Hnw. reflexivity.
    + split; [ | discriminate].
      split; [ | discriminate].
      run_cases Hk. all: simpl; intros Hf; tidy; congruence.
  - intros w w' o tr q res H Hin.
    settle_inv H.
    + exfalso. exact (no_write_In _ _ _ (verify_no_write _ _ _ _ _ _ _ _ Hv) Hin).
    + apply in_app_or in Hin. destruct Hin as [Hin | Hin].
      * exfalso. exact (no_write_In _ _ _ (verify_no_write _ _ _ _ _ _ _ _ Hv) Hin).
      * run_cases Hk. all: split; reflexivity.
Qed.

(** A wrapped signature, bytecode 0x both at verification and at settlement. *)
Lemma C8_undeployed_wallet_with_deployment_data_witness :
  let w := Demo.world (Ret 2000000) [Ret (Some "0x"); Ret (Some "0x")] in
  let payload := Demo.paymentPayload Demo.wrappedSignature Demo.goodAuthorization in
  let verified := verify Demo.lib Demo.client payload Demo.paymentRequirements w in
  let settled := settle Demo.lib Demo.client payload Demo.paymentRequirements w in
  accepts (fst (fst verified))
  /\ failsWith (fst (fst settled)) invalid_exact_evm_payload_undeployed_smart_wallet
  /\ existsb isWrite (snd settled) = false.
Proof.
  intros w payload verified settled.
  destruct (C8_undeployed_wallet_with_deployment_data Demo.lib Demo.client payload
              Demo.paymentRequirements
              {| Erc6492.signature := Demo.wrappedSignature;
                 Erc6492.address := Some "0xFactoryAddress000000000000000000000000";
                 Erc6492.data := Some "0xfactoryCa11data" |}
              eq_refl eq_refl eq_refl) as (Hverify & Hsettle & _).
  assert (Hv : In (EGetCode Demo.payer (Ret (Some "0x"))) (snd verified))
    by (vm_compute; tauto).
  destruct (Hsettle w (snd (fst verified))
              (snd (Demo.popBytecode (snd (fst verified))))
              {| VerifyResponse.isValid := true;
                 VerifyResponse.invalidReason := None;
                 VerifyResponse.payer := Demo.payer |}
              (snd verified) (Some "0x") eq_refl eq_refl eq_refl)
    as [Hiff Hrun].
  destruct (Hrun eq_refl) as [Hrun' Hnw].
  split; [ | split].
  - rewrite (Hverify _ _ _ _ _ (run_eta verified) Hv eq_refl). split; reflexivity.
  - apply Hiff. reflexivity.
  - fold settled in Hrun'. rewrite Hrun'. exact Hnw.
Defined.

(** ** The recovery id of an EOA settlement (C9) *)

#[local] Arguments Z.add : simpl never.
#[local] Arguments Number : simpl never.

Lemma Number_small (v : Z) : Z.abs v < 2 ^ 53 -> Number v = v.
Proof.
  intros H. unfold Number.
  destruct (Z.ltb_spec (Z.abs v) (2 ^ 53)); [reflexivity | lia].
Qed.

(** C9: in a run of [settle] on a signature of the EOA shape, the call that
    is submitted is of the scalar-triple overload, with the r and s of the
    decomposed signature, and its recovery-id argument is the recovery id of
    the decomposed signature when that is present (as a number: the value
    itself below 2^53, so for 27 and 28), and 27 plus the parity otherwise:
    27 for parity 0 and 28 for parity 1. *)
Theorem C9_recovery_id {World} (lib : Lib) (c : Client World)
    (p : PaymentPayload.t) (r : PaymentRequirements.t) (w w' : World)
    (o : outcome SettleResponse.t) (tr : list Event)
    (q : WriteContract.t) (res : outcome string) :
  settle lib c p r w = (o, w', tr) ->
  isSmartWallet (ExactEvmPayload.signature (PaymentPayload.payload p)) = false ->
  In (EWriteContract q res) tr ->
  exists parsedSig,
    parseSignature lib (ExactEvmPayload.signature (PaymentPayload.payload p))
      = Ret parsedSig
    /\ (exists from to value validAfter validBefore nonce v,
          WriteContract.args q =
            ScalarTriple from to value validAfter validBefore nonce v
              (Signature.r parsedSig) (Signature.s parsedSig))
    /\ (forall v, Signature.v parsedSig = Some v ->
        recoveryId (WriteContract.args q) = Some (Number v)
        /\ (Z.abs v < 2 ^ 53 -> recoveryId (WriteContract.args q) = Some v))
    /\ (Signature.v parsedSig = None ->
        recoveryId (WriteContract.args q) = Some (27 + Signature.yParity parsedSig)
        /\ (Signature.yParity parsedSig = 0 -> recoveryId (WriteContract.args q) = Some 27)
        /\ (Signature.yParity parsedSig = 1 -> recoveryId (WriteContract.args q) = Some 28)).
Proof.
  intros H Hsw Hin.
  settle_inv H.
  - exfalso. exact (no_write_In _ _ _ (verify_no_write _ _ _ _ _ _ _ _ Hv) Hin).
  - apply in_app_or in Hin. destruct Hin as [Hin | Hin].
    + exfalso. exact (no_write_In _ _ _ (verify_no_write _ _ _ _ _ _ _ _ Hv) Hin).
    + rewrite Hsw in Hk. run_cases Hk.
      all: eexists; split; [reflexivity | ].
      all: split; [do 7 eexists; reflexivity | ].
      all: split; [intros v Ev | intros Ev]; simpl in *.
      all: match goal with
           | E : Signature.v ?x = _, E' : Signature.v ?x = _ |- _ =>
               rewrite E in E'; tidy
           end.
      all: repeat split; intros; try reflexivity.
      all: try (rewrite Number_small by assumption; reflexivity).
      all: match goal with E : Signature.yParity _ = _ |- _ => rewrite E; reflexivity end.
Qed.

Lemma firstWrite_In (tr : list Event) (q : WriteContract.t) :
  firstWrite tr = Some q -> exists res, In (EWriteContract q res) tr.
Proof.
  induction tr as [ | ev tr IH]; simpl; intros H.
  - discriminate H.
  - destruct ev; try (destruct (IH H) as [res Hin]; exists res; right; exact Hin).
    inversion H; subst. eexists. left. reflexivity.
Qed.

(** A signature ending in the recovery id 27, and one ending in the parity 1. *)
Lemma C9_recovery_id_witness :
  let w := Demo.world (Ret 2000000) [] in
  let withRecoveryId :=
    settle Demo.lib Demo.client
      (Demo.paymentPayload Demo.eoaSignature Demo.goodAuthorization)
      Demo.paymentRequirements w in
  let withParity :=
    settle Demo.lib Demo.client
      (Demo.paymentPayload Demo.eoaParitySignature Demo.goodAuthorization)
      Demo.paymentRequirements w in
  option_map (fun q => recoveryId (WriteContract.args q)) (firstWrite (snd withRecoveryId))
    = Some (Some 27)
  /\ option_map (fun q => recoveryId (WriteContract.args q)) (firstWrite (snd withParity))
     = Some (Some 28).
Proof.
  intros w withRecoveryId withParity. split.
  - destruct (firstWrite (snd withRecoveryId)) as [q | ] eqn:E;
      [ | vm_compute in E; discriminate E].
    destruct (firstWrite_In _ _ E) as [res Hin].
    destruct (C9_recovery_id _ _ _ _ _ _ _ _ _ _ (run_eta withRecoveryId) eq_refl Hin)
      as (parsedSig & Eparse & _ & Hv & _).
    vm_compute in Eparse. inversion Eparse; subst parsedSig.
    destruct (Hv 27 eq_refl) as [_ Hsmall].
    simpl. rewrite Hsmall; reflexivity.
  - destruct (firstWrite (snd withParity)) as [q | ] eqn:E;
      [ | vm_compute in E; discriminate E].
    destruct (firstWrite_In _ _ E) as [res Hin].
    destruct (C9_recovery_id _ _ _ _ _ _ _ _ _ _ (run_eta withParity) eq_refl Hin)
      as (parsedSig & Eparse & _ & _ & Hparity).
    vm_compute in Eparse. inversion Eparse; subst parsedSig.
    destruct (Hparity eq_refl) as (_ & _ & H28).
    simpl. rewrite H28; reflexivity.
Defined.

(** ** The shape of the result of [settle] (C10) *)

(** The reasons [verify] reports are its own. *)
Lemma verify_reasons {World} (lib : Lib) (c : Client World)
    (p : PaymentPayload.t) (r : PaymentRequirements.t) (w w' : World)
    (res : VerifyResponse.t) (tr : list Event) :
  verify lib c p r w = (Ret res, w', tr) ->
  VerifyResponse.invalidReason res <> Some invalid_transaction_state
  /\ VerifyResponse.invalidReason res <> Some invalid_scheme
  /\ (VerifyResponse.isValid res = false -> VerifyResponse.invalidReason res <> None).
Proof.
  intros H. unfold verify in H. run_cases H.
  all: simpl; repeat split; congruence.
Qed.

(** C10: a result of [settle] with success = true has no errorReason and its
    transaction is the hash the submission returned; a result returned
    without a submission is a failure with the empty string as transaction;
    a failure always has a reason, and the only one that carries a non-empty
    transaction is invalid_transaction_state, reported for the submitted
    transaction when its receipt is not a success. *)
Theorem C10_settle_result_shape {World} (lib : Lib) (c : Client World)
    (p : PaymentPayload.t) (r : PaymentRequirements.t) (w w' : World)
    (res : SettleResponse.t) (tr : list Event) :
  settle lib c p r w = (Ret res, w', tr) ->
  (SettleResponse.success res = true ->
   SettleResponse.errorReason res = None
   /\ exists q, In (EWriteContract q (Ret (SettleResponse.transaction res))) tr)
  /\ (SettleResponse.success res = false -> SettleResponse.errorReason res <> None)
  /\ (existsb isWrite tr = false ->
      SettleResponse.success res = false /\ SettleResponse.transaction res = "")
  /\ (SettleResponse.success res = false ->
      SettleResponse.transaction res <> "" ->
      SettleResponse.errorReason res = Some invalid_transaction_state)
  /\ (SettleResponse.errorReason res = Some invalid_transaction_state ->
      (exists q, In (EWriteContract q (Ret (SettleResponse.transaction res))) tr)
      /\ In (EWaitForTransactionReceipt (SettleResponse.transaction res)
               (Ret {| Receipt.status := reverted |})) tr)
  /\ SettleResponse.network res = PaymentPayload.network p
  /\ SettleResponse.payer res
     = Authorization.from (ExactEvmPayload.authorization (PaymentPayload.payload p)).
Proof.
  intros H. settle_inv H.
  pose proof (verify_no_write _ _ _ _ _ _ _ _ Hv) as Hnw.
  destruct (verify_reasons _ _ _ _ _ _ _ _ Hv) as (Hr1 & Hr2 & Hr3).
  run_cases Hk.
  all: repeat match goal with x : Receipt.t |- _ => destruct x end; simpl in *; subst.
  all: rewrite ?existsb_app, ?Hnw; simpl.
  all: repeat (repeat split; intros); simpl in *; tidy.
  all: try reflexivity; try congruence.
  all: try (eexists; apply in_or_app; right; simpl; tauto).
  all: try (apply in_or_app; right; simpl; tauto).
  all: destruct (VerifyResponse.invalidReason valid); simpl in *; congruence.
Qed.

(** A settlement that succeeds, one whose transaction reverts, and one that is
    refused by the verification. *)
Lemma C10_settle_result_shape_witness :
  let payload := Demo.paymentPayload Demo.eoaSignature Demo.goodAuthorization in
  let settled := settle Demo.lib Demo.client payload Demo.paymentRequirements
                   (Demo.world (Ret 2000000) []) in
  let undone := settle Demo.lib Demo.client payload Demo.paymentRequirements
                    (Demo.reverting (Demo.world (Ret 2000000) [])) in
  let refused := settle Demo.lib Demo.client payload Demo.paymentRequirements
                   (Demo.world (Ret 500000) []) in
  (exists q, In (EWriteContract q (Ret "0xtxhash")) (snd settled))
  /\ In (EWaitForTransactionReceipt "0xtxhash" (Ret {| Receipt.status := reverted |}))
        (snd undone)
  /\ failsWith (fst (fst refused)) insufficient_funds.
Proof.
  intros payload settled undone refused.
  destruct (C10_settle_result_shape Demo.lib Demo.client payload Demo.paymentRequirements
              (Demo.world (Ret 2000000) []) (snd (fst settled))
              {| SettleResponse.success := true;
                 SettleResponse.errorReason := None;
                 SettleResponse.transaction := "0xtxhash";
                 SettleResponse.network := "base-sepolia";
                 SettleResponse.payer := Demo.payer |}
              (snd settled) eq_refl) as (Hsuccess & _).
  destruct (C10_settle_result_shape Demo.lib Demo.client payload Demo.paymentRequirements
              (Demo.reverting (Demo.world (Ret 2000000) [])) (snd (fst undone))
              {| SettleResponse.success := false;
                 SettleResponse.errorReason := Some invalid_transaction_state;
                 SettleResponse.transaction := "0xtxhash";
                 SettleResponse.network := "base-sepolia";
                 SettleResponse.payer := Demo.payer |}
              (snd undone) eq_refl) as (_ & _ & _ & _ & Hreverted & _).
  destruct (C10_settle_result_shape Demo.lib Demo.client payload Demo.paymentRequirements
              (Demo.world (Ret 500000) []) (snd (fst refused))
              {| SettleResponse.success := false;
                 SettleResponse.errorReason := Some insufficient_funds;
                 SettleResponse.transaction := "";
                 SettleResponse.network := "base-sepolia";
                 SettleResponse.payer := Demo.payer |}
              (snd refused) eq_refl) as (_ & _ & Hrefused & _).
  split; [ | split].
  - exact (proj2 (Hsuccess eq_refl)).
  - exact (proj2 (Hreverted eq_refl)).
  - destruct (Hrefused eq_refl) as [Hfail _]. split; [exact Hfail | reflexivity].
Defined.

(** ** The cases of the test suite of the facilitator, run on the model *)

Example verify_accepts_undeployed_wallet_with_deployment_info :
  fst (fst (verify Demo.lib Demo.client
              (Demo.paymentPayload Demo.wrappedSignature Demo.goodAuthorization)
              Demo.paymentRequirements (Demo.world (Ret 2000000) [Ret (Some "0x")])))
  = Ret {| VerifyResponse.isValid := true;
           VerifyResponse.invalidReason := None;
           VerifyResponse.payer := Demo.payer |}.
Proof. reflexivity. Qed.

Example verify_rejects_undeployed_wallet_without_deployment_info :
  fst (fst (verify Demo.lib Demo.client
              (Demo.paymentPayload Demo.walletSignature Demo.goodAuthorization)
              Demo.paymentRequirements (Demo.world (Ret 2000000) [Ret (Some "0x")])))
  = Ret {| VerifyResponse.isValid := false;
           VerifyResponse.invalidReason :=
             Some invalid_exact_evm_payload_undeployed_smart_wallet;
           VerifyResponse.payer := Demo.payer |}.
Proof. reflexivity. Qed.

Example verify_does_not_read_bytecode_for_EOA :
  reads (snd (verify Demo.lib Demo.client
                (Demo.paymentPayload Demo.eoaSignature Demo.goodAuthorization)
                Demo.paymentRequirements (Demo.world (Ret 2000000) [Ret (Some "0x")])))
  = [KVerifyTypedData; KDateNow; KDateNow; KGetERC20Balance].
Proof. reflexivity. Qed.

Example settle_rejects_wallet_without_bytecode :
  fst (fst (settle Demo.lib Demo.client
              (Demo.paymentPayload Demo.walletSignature Demo.goodAuthorization)
              Demo.paymentRequirements
              (Demo.world (Ret 2000000) [Ret (Some "0x6080"); Ret None])))
  = Ret {| SettleResponse.success := false;
           SettleResponse.errorReason :=
             Some invalid_exact_evm_payload_undeployed_smart_wallet;
           SettleResponse.transaction := "";
           SettleResponse.network := "base-sepolia";
           SettleResponse.payer := Demo.payer |}.
Proof. reflexivity. Qed.

Example settle_submits_for_deployed_wallet :
  let run := settle Demo.lib Demo.client
               (Demo.paymentPayload Demo.walletSignature Demo.goodAuthorization)
               Demo.paymentRequirements
               (Demo.world (Ret 2000000) [Ret (Some "0x6080"); Ret (Some "0x6080")]) in
  option_map (fun q => recoveryId (WriteContract.args q)) (firstWrite (snd run)) = Some None
  /\ option_map SettleResponse.success
       (match fst (fst run) with Ret res => Some res | Throw _ => None end) = Some true.
Proof. split; reflexivity. Qed.

Example verify_boundary_valid_after_is_now :
  accepts (fst (fst (verify Demo.lib Demo.client
                       (Demo.paymentPayload Demo.eoaSignature
                          (Demo.authorization Demo.payTo "1000000" "1700000000" "1700000006"))
                       Demo.paymentRequirements (Demo.world (Ret 2000000) [])))).
Proof. split; reflexivity. Qed.

(** * Further properties of [verify] and [settle] *)

(** ** [verify] is a read-only check *)

(** X1: [verify] only reads: no run of it submits a transaction or waits for
    a receipt, and a run makes at most six calls, the on-chain version read
    among them at most once and before every other call. *)
Theorem X1_verify_only_reads {World} (lib : Lib) (c : Client World)
    (p : PaymentPayload.t) (r : PaymentRequirements.t) (w w' : World)
    (o : outcome VerifyResponse.t) (tr : list Event) :
  verify lib c p r w = (o, w', tr) ->
  existsb isSubmission tr = false
  /\ (List.length tr <= 6)%nat
  /\ existsb isGetVersion (tl tr) = false.
Proof.
  intros H. unfold verify in H. run_cases H.
  all: simpl; repeat split; try reflexivity; lia.
Qed.

(** A run of [verify] on a contract-wallet signature that goes through all
    its checks: no submission among its six calls. *)
Lemma X1_verify_only_reads_witness :
  let run := verify Demo.lib Demo.client
               (Demo.paymentPayload Demo.walletSignature Demo.goodAuthorization)
               Demo.paymentRequirements
               (Demo.world (Ret 2000000) [Ret (Some "0x6080")]) in
  List.length (snd run) = 6%nat /\ existsb isSubmission (snd run) = false.
Proof.
  intros run. split; [reflexivity | ].
  exact (proj1 (X1_verify_only_reads _ _ _ _ _ _ _ _ (run_eta run))).
Defined.

(** ** What the signature is verified against *)

(** X2: whenever [verify] asks the client to verify the typed data, the data
    are bound to this payment: the signer is the [from] of the authorization,
    the message is the authorization, the signature is that of the payload,
    the verifying contract is the asset of the requirements, the chain id is
    the one the network of the payload resolves to, the name is that of
    [extra] or else the one configured for the chain, and the version is that
    of [extra] or else the one just read from the chain. *)
Theorem X2_typed_data_binding {World} (lib : Lib) (c : Client World)
    (p : PaymentPayload.t) (r : PaymentRequirements.t) (w w' : World)
    (o : outcome VerifyResponse.t) (tr : list Event)
    (q : TypedData.t) (res : outcome bool) :
  verify lib c p r w = (o, w', tr) ->
  In (EVerifyTypedData q res) tr ->
  let payload := PaymentPayload.payload p in
  let d := TypedData.dom q in
  TypedData.address q = Authorization.from (ExactEvmPayload.authorization payload)
  /\ TypedData.message q = ExactEvmPayload.authorization payload
  /\ TypedData.signature q = ExactEvmPayload.signature payload
  /\ TypedData.verifyingContract d = PaymentRequirements.asset r
  /\ getNetworkId lib (PaymentPayload.network p) = Ret (TypedData.chainId d)
  /\ match extra_name r with
     | Some name => TypedData.name d = name
     | None => exists cfg, config lib (TypedData.chainId d) = Some cfg
                           /\ TypedData.name d = ChainConfig.usdcName cfg
     end
  /\ match extra_version r with
     | Some version => TypedData.version d = version
     | None => In (EGetVersion (Ret (TypedData.version d))) tr
     end.
Proof.
  intros H Hin. unfold verify in H. run_cases H.
  all: unfold config_usdcName in *; repeat case_step.
  all: simpl; repeat split; try reflexivity; try (simpl; tauto).
  all: eexists; split; [eassumption | reflexivity].
Qed.

Lemma X2_typed_data_binding_witness :
  let a := Demo.goodAuthorization in
  let run := verify Demo.lib Demo.client (Demo.paymentPayload Demo.eoaSignature a)
               Demo.paymentRequirements (Demo.world (Ret 2000000) []) in
  In (EVerifyTypedData (Demo.typedData Demo.eoaSignature a) (Ret true)) (snd run)
  /\ Demo.getNetworkId "base-sepolia" = Ret 84532
  /\ In (EGetVersion (Ret "2")) (snd run).
Proof.
  intros a run.
  assert (Hin : In (EVerifyTypedData (Demo.typedData Demo.eoaSignature a) (Ret true))
                   (snd run)) by (vm_compute; tauto).
  destruct (X2_typed_data_binding _ _ _ _ _ _ _ _ _ _ (run_eta run) Hin)
    as (_ & _ & _ & _ & Hchain & _ & Hversion).
  split; [exact Hin | split; [exact Hchain | exact Hversion]].
Defined.

(** X3: neither function ever looks at the [network] of the requirements or
    at the [x402Version] of the payload: the chain is the one the network of
    the payload names, and a run with other values of these two fields is the
    same run. *)
Theorem X3_requirements_network_is_not_checked {World} (lib : Lib) (c : Client World)
    (p : PaymentPayload.t) (r : PaymentRequirements.t)
    (network : string) (x402Version : Z) (w : World) :
  verify lib c (withX402Version p x402Version) (withNetwork r network) w
    = verify lib c p r w
  /\ settle lib c (withX402Version p x402Version) (withNetwork r network) w
     = settle lib c p r w.
Proof. split; reflexivity. Qed.

(** ** What an accepted payment guarantees *)

(** An event that is written out in a trace. *)
Ltac find_event := simpl; repeat (first [left; reflexivity | right]).

Lemma getAddress_Ret (lib : Lib) (address normal : string) :
  getAddress lib address = Ret normal ->
  isAddress address = true /\ normal = checksumAddress lib address.
Proof.
  unfold getAddress. destruct (isAddress address); simpl; intros H.
  - inversion H. auto.
  - discriminate H.
Qed.

Lemma getAddress_Throw (lib : Lib) (address : string) (e : exn) :
  getAddress lib address = Throw e -> isAddress address = false.
Proof.
  unfold getAddress. destruct (isAddress address); simpl; intros H.
  - discriminate H.
  - reflexivity.
Qed.

(** Two addresses whose normal forms are compared equal by [verify]. *)
Lemma same_recipient (lib : Lib) (a b x y : string) :
  getAddress lib a = Ret x -> getAddress lib b = Ret y ->
  negb (x =? y)%string = false ->
  isAddress a = true /\ isAddress b = true /\ toLowerCase a = toLowerCase b.
Proof.
  intros Ha Hb Heq.
  destruct (getAddress_Ret _ _ _ Ha) as [Ia ->].
  destruct (getAddress_Ret _ _ _ Hb) as [Ib ->].
  apply negb_false_iff in Heq. apply String.eqb_eq in Heq.
  repeat split; try assumption.
  apply (checksumAddress_eq_iff lib a b Ia Ib). exact Heq.
Qed.

(** Everything an accepting run of [verify] has established. *)
Lemma verify_accepts_inv {World} (lib : Lib) (c : Client World)
    (p : PaymentPayload.t) (r : PaymentRequirements.t) (w w' : World)
    (res : VerifyResponse.t) (tr : list Event) :
  verify lib c p r w = (Ret res, w', tr) ->
  VerifyResponse.isValid res = true ->
  let payload := PaymentPayload.payload p in
  let a := ExactEvmPayload.authorization payload in
  (PaymentPayload.scheme p = SCHEME /\ PaymentRequirements.scheme r = SCHEME)
  /\ (exists q, In (EVerifyTypedData q (Ret true)) tr)
  /\ (isAddress (Authorization.to a) = true
      /\ isAddress (PaymentRequirements.payTo r) = true
      /\ toLowerCase (Authorization.to a) = toLowerCase (PaymentRequirements.payTo r))
  /\ (exists validBefore validAfter now1 now2,
        BigInt lib (Authorization.validBefore a) = Ret validBefore
        /\ BigInt lib (Authorization.validAfter a) = Ret validAfter
        /\ clockReadings tr = [now1; now2]
        /\ seconds now1 + 6 <= validBefore
        /\ validAfter <= seconds now2)
  /\ (exists balance maxAmountRequired value,
        In (EGetERC20Balance (PaymentRequirements.asset r) (Authorization.from a)
              (Ret balance)) tr
        /\ BigInt lib (PaymentRequirements.maxAmountRequired r) = Ret maxAmountRequired
        /\ BigInt lib (Authorization.value a) = Ret value
        /\ maxAmountRequired <= balance
        /\ maxAmountRequired <= value)
  /\ (isSmartWallet (ExactEvmPayload.signature payload) = false
      \/ exists bytecode,
           In (EGetCode (Authorization.from a) (Ret bytecode)) tr
           /\ (noBytecode bytecode = false
               \/ exists erc6492Data,
                    parseErc6492Signature lib (ExactEvmPayload.signature payload)
                      = Ret erc6492Data
                    /\ hasDeploymentInfo erc6492Data = true)).
Proof.
  intros H Hvalid. unfold verify in H. run_cases H.
  all: try discriminate Hvalid.
  all: match goal with
       | Ha : getAddress _ _ = Ret _, Hb : getAddress _ _ = Ret _,
         Heq : negb (_ =? _)%string = false |- _ =>
           pose proof (same_recipient _ _ _ _ _ Ha Hb Heq) as Hsame
       end.
  all: scheme_test; bool_to_prop.
  all: repeat match goal with
         | E : negb _ = false |- _ => apply negb_false_iff in E
         end.
  all: subst; simpl.
  all: split; [split; assumption | ].
  all: split; [eexists; find_event | ].
  all: split; [exact Hsame | ].
  all: split; [do 4 eexists; repeat split; try reflexivity; lia | ].
  all: split; [do 3 eexists; split; [find_event | repeat split; try reflexivity; lia] | ].
  all: try (left; reflexivity).
  all: right; eexists; split; [find_event | ].
  all: try (left; assumption).
  all: right; eexists; split; [reflexivity | assumption].
Qed.

(** X4: an answer isValid = true of [verify] means that every check has
    passed in this run: both schemes are the exact scheme, the client
    verified the signature, [to] and [payTo] are well-formed and the same
    address up to the case of the letters, validBefore is at least 6 seconds
    after the first clock reading and validAfter not after the second, the
    balance read for the payer on the asset and the value of the
    authorization both cover maxAmountRequired, and the signature is of the
    EOA shape or the bytecode of the payer was read and is non-empty or the
    signature carries deployment data. *)
Theorem X4_accepted_payment_passed_every_check {World} (lib : Lib) (c : Client World)
    (p : PaymentPayload.t) (r : PaymentRequirements.t) (w w' : World)
    (o : outcome VerifyResponse.t) (tr : list Event) :
  verify lib c p r w = (o, w', tr) ->
  accepts o ->
  let payload := PaymentPayload.payload p in
  let a := ExactEvmPayload.authorization payload in
  (PaymentPayload.scheme p = SCHEME /\ PaymentRequirements.scheme r = SCHEME)
  /\ (exists q, In (EVerifyTypedData q (Ret true)) tr)
  /\ (isAddress (Authorization.to a) = true
      /\ isAddress (PaymentRequirements.payTo r) = true
      /\ toLowerCase (Authorization.to a) = toLowerCase (PaymentRequirements.payTo r))
  /\ (exists validBefore validAfter now1 now2,
        BigInt lib (Authorization.validBefore a) = Ret validBefore
        /\ BigInt lib (Authorization.validAfter a) = Ret validAfter
        /\ clockReadings tr = [now1; now2]
        /\ seconds now1 + 6 <= validBefore
        /\ validAfter <= seconds now2)
  /\ (exists balance maxAmountRequired value,
        In (EGetERC20Balance (PaymentRequirements.asset r) (Authorization.from a)
              (Ret balance)) tr
        /\ BigInt lib (PaymentRequirements.maxAmountRequired r) = Ret maxAmountRequired
        /\ BigInt lib (Authorization.value a) = Ret value
        /\ maxAmountRequired <= balance
        /\ maxAmountRequired <= value)
  /\ (isSmartWallet (ExactEvmPayload.signature payload) = false
      \/ exists bytecode,
           In (EGetCode (Authorization.from a) (Ret bytecode)) tr
           /\ (noBytecode bytecode = false
               \/ exists erc6492Data,
                    parseErc6492Signature lib (ExactEvmPayload.signature payload)
                      = Ret erc6492Data
                    /\ hasDeploymentInfo erc6492Data = true)).
Proof.
  intros H Hacc. destruct o as [res | e]; [ | destruct Hacc].
  destruct Hacc as [Hvalid _].
  exact (verify_accepts_inv _ _ _ _ _ _ _ _ H Hvalid).
Qed.

Lemma X4_accepted_payment_passed_every_check_witness :
  let run := verify Demo.lib Demo.client
               (Demo.paymentPayload Demo.eoaSignature
                  (Demo.authorization Demo.merchantUpperCase "1000000" "1699999400" "1700000300"))
               (Demo.paymentRequirementsTo Demo.merchant)
               (Demo.world (Ret 2000000) []) in
  accepts (fst (fst run))
  /\ toLowerCase Demo.merchantUpperCase = toLowerCase Demo.merchant
  /\ clockReadings (snd run) = [1700000000000; 1700000000400].
Proof.
  intros run.
  assert (Hacc : accepts (fst (fst run))) by (split; reflexivity).
  destruct (X4_accepted_payment_passed_every_check _ _ _ _ _ _ _ _ (run_eta run) Hacc)
    as (_ & _ & (_ & _ & Hsame) & _).
  split; [exact Hacc | split; [exact Hsame | reflexivity]].
Defined.

(** X5: conversely, once a run of [verify] has read the balance, the payment
    is accepted as soon as the balance and the value of the authorization
    cover maxAmountRequired and the wallet is ready: the signature is of the
    EOA shape, or the bytecode read is non-empty, or the signature carries
    deployment data.  Nothing else is looked at after the balance. *)
Theorem X5_sufficient_payment_is_accepted {World} (lib : Lib) (c : Client World)
    (p : PaymentPayload.t) (r : PaymentRequirements.t) (w w' : World)
    (o : outcome VerifyResponse.t) (tr : list Event)
    (erc20Address address : string) (balance maxAmountRequired value : Z) :
  verify lib c p r w = (o, w', tr) ->
  let payload := PaymentPayload.payload p in
  let a := ExactEvmPayload.authorization payload in
  In (EGetERC20Balance erc20Address address (Ret balance)) tr ->
  BigInt lib (PaymentRequirements.maxAmountRequired r) = Ret maxAmountRequired ->
  BigInt lib (Authorization.value a) = Ret value ->
  maxAmountRequired <= balance ->
  maxAmountRequired <= value ->
  (isSmartWallet (ExactEvmPayload.signature payload) = false
   \/ exists bytecode,
        In (EGetCode (Authorization.from a) (Ret bytecode)) tr
        /\ (noBytecode bytecode = false
            \/ exists erc6492Data,
                 parseErc6492Signature lib (ExactEvmPayload.signature payload)
                   = Ret erc6492Data
                 /\ hasDeploymentInfo erc6492Data = true)) ->
  o = Ret {| VerifyResponse.isValid := true;
             VerifyResponse.invalidReason := None;
             VerifyResponse.payer := Authorization.from a |}.
Proof.
  intros H payload a Hin Hmax Hvalue Hb Hv Hwallet.
  unfold verify in H. fold payload in H. fold a in H.
  rewrite Hmax, Hvalue in H.
  run_cases H.
  all: bool_to_prop; try lia; try reflexivity.
  all: repeat match goal with
         | E : negb _ = true |- _ => apply negb_true_iff in E
         | E : negb _ = false |- _ => apply negb_false_iff in E
         end.
  all: try congruence.
Qed.

Lemma X5_sufficient_payment_is_accepted_witness :
  let payload := Demo.paymentPayload Demo.wrappedSignature Demo.goodAuthorization in
  let run := verify Demo.lib Demo.client payload Demo.paymentRequirements
               (Demo.world (Ret 1000000) [Ret None]) in
  fst (fst run) = Ret {| VerifyResponse.isValid := true;
                         VerifyResponse.invalidReason := None;
                         VerifyResponse.payer := Demo.payer |}.
Proof.
  intros payload run.
  apply (X5_sufficient_payment_is_accepted Demo.lib Demo.client payload
           Demo.paymentRequirements _ _ _ _ Demo.asset Demo.payer 1000000 1000000 1000000
           (run_eta run)).
  - vm_compute. tauto.
  - reflexivity.
  - reflexivity.
  - discriminate.
  - discriminate.
  - right. exists None. split; [vm_compute; tauto | ].
    right. eexists. split; reflexivity.
Defined.

(** ** The version read *)

(** X6: [verify] reads the token version from the chain exactly when the
    requirements give none in [extra] and the network resolution got that
    far: both schemes are the exact scheme, the network of the payload is
    known, and the name is given in [extra] or configured for the chain. *)
Theorem X6_version_read_only_when_needed {World} (lib : Lib) (c : Client World)
    (p : PaymentPayload.t) (r : PaymentRequirements.t) (w w' : World)
    (o : outcome VerifyResponse.t) (tr : list Event) :
  verify lib c p r w = (o, w', tr) ->
  existsb isGetVersion tr = true
  <-> (PaymentPayload.scheme p = SCHEME
       /\ PaymentRequirements.scheme r = SCHEME
       /\ (exists chainId,
             getNetworkId lib (PaymentPayload.network p) = Ret chainId
             /\ (extra_name r = None -> config lib chainId <> None))
       /\ extra_version r = None).
Proof.
  intros H. unfold verify in H. run_cases H.
  all: unfold config_usdcName in *; repeat case_step.
  all: scheme_test; simpl; split; intros Hx; try discriminate Hx; try reflexivity.
  all: try (destruct Hx as (Hp & Hr & (chainId & Hid & Hcfg) & Hversion)).
  all: try congruence; try tauto.
  all: try (repeat split; try assumption; eexists; split;
            [reflexivity | intros; congruence]).
  all: try (match goal with E : Ret _ = Ret _ |- _ => inversion E; subst end;
            exfalso; apply Hcfg; [reflexivity | assumption]).
  all: destruct Heqb as [Hs | Hs]; scheme_test; congruence.
Qed.

Lemma X6_version_read_only_when_needed_witness :
  let a := Demo.goodAuthorization in
  let run := verify Demo.lib Demo.client (Demo.paymentPayload Demo.eoaSignature a)
               Demo.paymentRequirements (Demo.world (Ret 2000000) []) in
  existsb isGetVersion (snd run) = true /\ extra_version Demo.paymentRequirements = None.
Proof.
  intros a run.
  assert (Hread : existsb isGetVersion (snd run) = true) by reflexivity.
  destruct (proj1 (X6_version_read_only_when_needed _ _ _ _ _ _ _ _ (run_eta run)) Hread)
    as (_ & _ & _ & Hversion).
  split; [exact Hread | exact Hversion].
Defined.

(** ** Malformed fields *)

(** X7: the fields of a payment are not validated into a reason: once the
    signature has verified, a [to] or [payTo] that is no well-formed address
    makes [verify] throw before any further read, and a validBefore,
    validAfter, maxAmountRequired or value that [BigInt] refuses makes it
    throw that error at the check that needs the field. *)
Theorem X7_malformed_fields_throw {World} (lib : Lib) (c : Client World)
    (p : PaymentPayload.t) (r : PaymentRequirements.t) (w w' : World)
    (o : outcome VerifyResponse.t) (tr : list Event) (q : TypedData.t) :
  verify lib c p r w = (o, w', tr) ->
  In (EVerifyTypedData q (Ret true)) tr ->
  let a := ExactEvmPayload.authorization (PaymentPayload.payload p) in
  ((isAddress (Authorization.to a) = false
    \/ isAddress (PaymentRequirements.payTo r) = false) ->
   (exists e, o = Throw e) /\ reads tr = [KVerifyTypedData])
  /\ (forall e,
        isAddress (Authorization.to a) = true ->
        isAddress (PaymentRequirements.payTo r) = true ->
        toLowerCase (Authorization.to a) = toLowerCase (PaymentRequirements.payTo r) ->
        BigInt lib (Authorization.validBefore a) = Throw e ->
        o = Throw e /\ reads tr = [KVerifyTypedData])
  /\ (forall e now1,
        clockReadings tr = [now1] ->
        BigInt lib (Authorization.validAfter a) = Throw e ->
        ~ rejects o invalid_exact_evm_payload_authorization_valid_before ->
        o = Throw e)
  /\ (forall e erc20Address address balance,
        In (EGetERC20Balance erc20Address address (Ret balance)) tr ->
        BigInt lib (PaymentRequirements.maxAmountRequired r) = Throw e ->
        o = Throw e)
  /\ (forall e erc20Address address balance maxAmountRequired,
        In (EGetERC20Balance erc20Address address (Ret balance)) tr ->
        BigInt lib (PaymentRequirements.maxAmountRequired r) = Ret maxAmountRequired ->
        maxAmountRequired <= balance ->
        BigInt lib (Authorization.value a) = Throw e ->
        o = Throw e).
Proof.
  intros H Hin a. unfold verify in H. fold a in H. run_cases H.
  all: repeat match goal with
         | Ha : getAddress _ _ = Ret _ |- _ => apply getAddress_Ret in Ha; destruct Ha
         | Ha : getAddress _ _ = Throw _ |- _ => apply getAddress_Throw in Ha
         end.
  all: repeat match goal with
         | E : negb (_ =? _)%string = true |- _ =>
             apply negb_true_iff in E; apply String.eqb_neq in E
         end.
  all: subst.
  all: repeat (repeat split; intros); simpl in *; tidy;
    try reflexivity; try congruence; try (eexists; reflexivity).
  all: try (exfalso;
            match goal with
            | E : checksumAddress _ _ <> checksumAddress _ _ |- _ =>
                apply E; apply checksumAddress_eq_iff; assumption
            end).
  all: try (exfalso; match goal with N : ~ _ |- _ => apply N; split; reflexivity end).
  all: bool_to_prop; lia.
Qed.

(** A payment to the string 0x123: [verify] throws after the signature
    verification, without reading the clock. *)
Lemma X7_malformed_fields_throw_witness :
  let a := Demo.authorization "0x123" "1000000" "1699999400" "1700000300" in
  let run := verify Demo.lib Demo.client (Demo.paymentPayload Demo.eoaSignature a)
               Demo.paymentRequirements (Demo.world (Ret 2000000) []) in
  (exists e, fst (fst run) = Throw e) /\ reads (snd run) = [KVerifyTypedData].
Proof.
  intros a run.
  assert (Hin : In (EVerifyTypedData (Demo.typedData Demo.eoaSignature a) (Ret true))
                   (snd run)) by (vm_compute; tauto).
  destruct (X7_malformed_fields_throw _ _ _ _ _ _ _ _ _ (run_eta run) Hin) as (Haddr & _).
  apply Haddr. left. reflexivity.
Defined.

(** ** What [settle] submits *)

Lemma verify_no_submission {World} (lib : Lib) (c : Client World)
    (p : PaymentPayload.t) (r : PaymentRequirements.t) (w w' : World)
    (o : outcome VerifyResponse.t) (tr : list Event) :
  verify lib c p r w = (o, w', tr) ->
  existsb isSubmission tr = false.
Proof.
  intros H. unfold verify in H. run_cases H.
  all: reflexivity.
Qed.

Lemma no_submission_filter (tr : list Event) :
  existsb isSubmission tr = false ->
  filter isWrite tr = [] /\ filter isWait tr = []
  /\ (forall h rr, ~ In (EWaitForTransactionReceipt h rr) tr)
  /\ (forall q res, ~ In (EWriteContract q res) tr).
Proof.
  induction tr as [ | ev tr IH]; simpl; intros H.
  - repeat split; intros; tauto.
  - apply orb_false_elim in H. destruct H as [Hev Htr].
    destruct (IH Htr) as (Hw & Hwait & Hnw & Hnq).
    destruct ev; simpl in *; try discriminate Hev.
    all: repeat split; try assumption.
    all: intros; intros [Heq | Hin]; try discriminate Heq.
    all: try (eapply Hnw; eassumption); try (eapply Hnq; eassumption).
Qed.

(** X8: a transaction that [settle] submits is the payment that the
    verification of the same run has accepted: its from, to and nonce are
    those of the authorization, its value, validAfter and validBefore are the
    integers of the fields of the authorization, the value covers
    maxAmountRequired, and the recipient is the [payTo] of the requirements
    up to the case of the letters.  For a signature of the contract-wallet
    shape the call is of the bytes overload and carries the signature with
    the deployment wrapper removed; for the EOA shape it is of the other
    overload. *)
Theorem X8_submitted_transfer_is_the_verified_payment {World} (lib : Lib)
    (c : Client World) (p : PaymentPayload.t) (r : PaymentRequirements.t)
    (w w' : World) (o : outcome SettleResponse.t) (tr : list Event)
    (q : WriteContract.t) (res : outcome string) :
  settle lib c p r w = (o, w', tr) ->
  In (EWriteContract q res) tr ->
  let payload := PaymentPayload.payload p in
  let a := ExactEvmPayload.authorization payload in
  let args := WriteContract.args q in
  transferFrom args = Authorization.from a
  /\ transferTo args = Authorization.to a
  /\ transferNonce args = Authorization.nonce a
  /\ BigInt lib (Authorization.value a) = Ret (transferValue args)
  /\ BigInt lib (Authorization.validAfter a) = Ret (transferValidAfter args)
  /\ BigInt lib (Authorization.validBefore a) = Ret (transferValidBefore args)
  /\ (exists maxAmountRequired,
        BigInt lib (PaymentRequirements.maxAmountRequired r) = Ret maxAmountRequired
        /\ maxAmountRequired <= transferValue args)
  /\ toLowerCase (transferTo args) = toLowerCase (PaymentRequirements.payTo r)
  /\ (if isSmartWallet (ExactEvmPayload.signature payload)
      then exists erc6492Data,
             parseErc6492Signature lib (ExactEvmPayload.signature payload)
               = Ret erc6492Data
             /\ bytesSignature args = Some (Erc6492.signature erc6492Data)
      else bytesSignature args = None).
Proof.
  intros H Hin payload a args.
  settle_inv H.
  - exfalso.
    exact (proj2 (proj2 (proj2 (no_submission_filter _
             (verify_no_submission _ _ _ _ _ _ _ _ Hv)))) _ _ Hin).
  - apply in_app_or in Hin. destruct Hin as [Hin | Hin].
    + exfalso.
      exact (proj2 (proj2 (proj2 (no_submission_filter _
               (verify_no_submission _ _ _ _ _ _ _ _ Hv)))) _ _ Hin).
    + destruct (VerifyResponse.isValid valid) eqn:Hvalid;
        [ | simpl in Hk; unfold ret in Hk; inversion Hk; subst; destruct Hin].
      destruct (verify_accepts_inv _ _ _ _ _ _ _ _ Hv Hvalid)
        as (_ & _ & (_ & _ & Hsame) & (vb & va & _ & _ & Evb & Eva & _)
            & (b & m & v & _ & Em & Ev & _ & Hmv) & _).
      fold payload in Evb, Eva, Ev, Hsame, Hk. fold a in Evb, Eva, Ev, Hsame, Hk.
      simpl negb in Hk. cbv iota in Hk.
      rewrite Evb, Eva, Ev in Hk.
      run_cases Hk.
      all: subst args; simpl.
      all: repeat split; try reflexivity; try assumption.
      all: try (exists m; split; [assumption | assumption]).
      all: try (eexists; split; reflexivity).
Qed.

Lemma X8_submitted_transfer_is_the_verified_payment_witness :
  let payload := Demo.paymentPayload Demo.wrappedSignature Demo.goodAuthorization in
  let run := settle Demo.lib Demo.client payload Demo.paymentRequirements
               (Demo.world (Ret 2000000) [Ret (Some "0x"); Ret (Some "0x6080")]) in
  option_map (fun q => transferValue (WriteContract.args q)) (firstWrite (snd run))
    = Some 1000000
  /\ option_map (fun q => bytesSignature (WriteContract.args q)) (firstWrite (snd run))
     = Some (Some Demo.wrappedSignature).
Proof.
  intros payload run.
  destruct (firstWrite (snd run)) as [q | ] eqn:E; [ | vm_compute in E; discriminate E].
  destruct (firstWrite_In _ _ E) as [res Hin].
  destruct (X8_submitted_transfer_is_the_verified_payment _ _ _ _ _ _ _ _ _ _
              (run_eta run) Hin)
    as (_ & _ & _ & Hvalue & _ & _ & _ & _ & Hsig).
  assert (Hv : Ret (transferValue (WriteContract.args q)) = Ret 1000000)
    by (rewrite <- Hvalue; reflexivity).
  inversion Hv as [Hv'].
  change (isSmartWallet (ExactEvmPayload.signature (PaymentPayload.payload payload)))
    with true in Hsig.
  destruct Hsig as (d & Hd & Hbytes).
  assert (Hd' : Ret d = Ret {| Erc6492.signature := Demo.wrappedSignature;
                               Erc6492.address :=
                                 Some "0xFactoryAddress000000000000000000000000";
                               Erc6492.data := Some "0xfactoryCa11data" |})
    by (rewrite <- Hd; reflexivity).
  inversion Hd' as [Hd'']. rewrite Hd'' in Hbytes.
  simpl. rewrite Hbytes. split; reflexivity.
Defined.

(** ** One submission, no retry *)

(** X9: a run of [settle] submits at most one transaction and waits for at
    most one receipt, that of the hash the submission returned, as its last
    two calls.  A submission that throws is not retried: the exception is the
    outcome and no receipt is awaited; so is an exception of the wait.  A
    returned result says success exactly when the receipt read has the status
    success. *)
Theorem X9_single_submission {World} (lib : Lib) (c : Client World)
    (p : PaymentPayload.t) (r : PaymentRequirements.t) (w w' : World)
    (o : outcome SettleResponse.t) (tr : list Event) :
  settle lib c p r w = (o, w', tr) ->
  (List.length (filter isWrite tr) <= 1)%nat
  /\ (List.length (filter isWait tr) <= 1)%nat
  /\ (forall q e, In (EWriteContract q (Throw e)) tr ->
      o = Throw e /\ filter isWait tr = [])
  /\ (forall hash receipt, In (EWaitForTransactionReceipt hash receipt) tr ->
      exists before q,
        tr = before ++ [EWriteContract q (Ret hash);
                        EWaitForTransactionReceipt hash receipt]
        /\ existsb isSubmission before = false)
  /\ (forall hash e, In (EWaitForTransactionReceipt hash (Throw e)) tr -> o = Throw e)
  /\ (forall res, o = Ret res ->
      (SettleResponse.success res = true
       <-> In (EWaitForTransactionReceipt (SettleResponse.transaction res)
                 (Ret {| Receipt.status := success |})) tr)).
Proof.
  intros H. settle_inv H.
  - pose proof (verify_no_submission _ _ _ _ _ _ _ _ Hv) as Hns.
    destruct (no_submission_filter _ Hns) as (Hw & Hwait & Hnw & Hnq).
    rewrite Hw, Hwait. simpl.
    repeat split; intros; try lia; try discriminate.
    all: exfalso; first [eapply Hnq; eassumption | eapply Hnw; eassumption].
  - pose proof (verify_no_submission _ _ _ _ _ _ _ _ Hv) as Hns.
    destruct (no_submission_filter _ Hns) as (Hw & Hwait & Hnw & Hnq).
    rewrite !filter_app, Hw, Hwait. simpl app.
    assert (Hsplit : forall ev, In ev (t1 ++ t2) -> isSubmission ev = true -> In ev t2).
    { intros ev Hin Hsub. apply in_app_or in Hin. destruct Hin as [Hin | Hin].
      - assert (Ht : existsb isSubmission t1 = true)
          by (apply existsb_exists; exists ev; auto).
        congruence.
      - exact Hin. }
    run_cases Hk.
    all: repeat match goal with x : Receipt.t |- _ => destruct x end; simpl in *; subst.
    all: repeat split; intros; try lia; try discriminate.
    all: repeat match goal with
           | Hin : In ?ev (_ ++ _) |- _ =>
               apply (Hsplit ev) in Hin; [simpl in Hin | reflexivity]
           end.
    all: tidy; try reflexivity; try congruence.
    all: try (apply in_or_app; right; find_event).
    all: try (match goal with
              | |- exists before q, ?t ++ ?l = _ /\ _ =>
                  eexists (t ++ removelast (removelast l)); eexists;
                  split; [rewrite <- app_assoc; reflexivity
                         | rewrite existsb_app, Hns; reflexivity]
              end).
Qed.

(** A submission that the node refuses: the exception is the outcome of
    [settle], after a single submission and without a wait. *)
Lemma X9_single_submission_witness :
  let payload := Demo.paymentPayload Demo.eoaSignature Demo.goodAuthorization in
  let run := settle Demo.lib Demo.client payload Demo.paymentRequirements
               (Scenario.submissionFails (Demo.world (Ret 2000000) [])) in
  fst (fst run) = Throw (Error "execution reverted")
  /\ List.length (filter isWrite (snd run)) = 1%nat
  /\ filter isWait (snd run) = [].
Proof.
  intros payload run.
  destruct (firstWrite (snd run)) as [q | ] eqn:E; [ | vm_compute in E; discriminate E].
  assert (Hin : In (EWriteContract q (Throw (Error "execution reverted"))) (snd run)).
  { vm_compute in E. inversion E; subst q. vm_compute. tauto. }
  destruct (X9_single_submission _ _ _ _ _ _ _ _ (run_eta run)) as (_ & _ & Hthrow & _).
  destruct (Hthrow _ _ Hin) as [Ho Hwait].
  split; [exact Ho | split; [reflexivity | exact Hwait]].
Defined.

(** ** When the bytecode is read *)

Lemma verify_bytecode_reads {World} (lib : Lib) (c : Client World)
    (p : PaymentPayload.t) (r : PaymentRequirements.t) (w w' : World)
    (o : outcome VerifyResponse.t) (tr : list Event) :
  verify lib c p r w = (o, w', tr) ->
  let payload := PaymentPayload.payload p in
  let from := Authorization.from (ExactEvmPayload.authorization payload) in
  (isSmartWallet (ExactEvmPayload.signature payload) = false ->
   filter isGetCode tr = [])
  /\ (isSmartWallet (ExactEvmPayload.signature payload) = true ->
      forall res, o = Ret res -> VerifyResponse.isValid res = true ->
      exists bytecode,
        filter isGetCode tr = [EGetCode from (Ret bytecode)]
        /\ (noBytecode bytecode = false
            \/ exists erc6492Data,
                 parseErc6492Signature lib (ExactEvmPayload.signature payload)
                   = Ret erc6492Data
                 /\ hasDeploymentInfo erc6492Data = true)).
Proof.
  intros H. unfold verify in H. run_cases H.
  all: simpl; split; intros; try discriminate; try reflexivity; tidy.
  all: repeat match goal with
         | E : negb _ = false |- _ => apply negb_false_iff in E
         end.
  all: eexists; split; [reflexivity | ].
  all: first [left; assumption | right; eexists; split; [reflexivity | assumption]].
Qed.

(** X10: the bytecode of the payer is read only for a signature of the
    contract-wallet shape: for the EOA shape no run of [settle] (nor of the
    verification inside it) reads it.  For the contract-wallet shape a
    submission comes after exactly two reads of the bytecode of the payer,
    one by the verification and one by [settle], and the second has found
    code; the first has found code too unless the signature carries
    deployment data. *)
Theorem X10_bytecode_reads_by_shape {World} (lib : Lib) (c : Client World)
    (p : PaymentPayload.t) (r : PaymentRequirements.t) (w w' : World)
    (o : outcome SettleResponse.t) (tr : list Event) :
  settle lib c p r w = (o, w', tr) ->
  let payload := PaymentPayload.payload p in
  let from := Authorization.from (ExactEvmPayload.authorization payload) in
  (isSmartWallet (ExactEvmPayload.signature payload) = false ->
   filter isGetCode tr = [])
  /\ (isSmartWallet (ExactEvmPayload.signature payload) = true ->
      forall q res, In (EWriteContract q res) tr ->
      exists bytecode1 bytecode2,
        filter isGetCode tr
          = [EGetCode from (Ret bytecode1); EGetCode from (Ret bytecode2)]
        /\ noBytecode bytecode2 = false
        /\ (noBytecode bytecode1 = false
            \/ exists erc6492Data,
                 parseErc6492Signature lib (ExactEvmPayload.signature payload)
                   = Ret erc6492Data
                 /\ hasDeploymentInfo erc6492Data = true)).
Proof.
  intros H payload from.
  settle_inv H.
  - destruct (verify_bytecode_reads _ _ _ _ _ _ _ _ Hv) as [Heoa _].
    split; [exact Heoa | ].
    intros _ q res Hin. exfalso.
    exact (proj2 (proj2 (proj2 (no_submission_filter _
             (verify_no_submission _ _ _ _ _ _ _ _ Hv)))) _ _ Hin).
  - destruct (verify_bytecode_reads _ _ _ _ _ _ _ _ Hv) as [Heoa Hwallet].
    pose proof (no_submission_filter _ (verify_no_submission _ _ _ _ _ _ _ _ Hv))
      as (_ & _ & _ & Hnq).
    fold payload in Hk, Heoa, Hwallet. fold from in Hk, Hwallet.
    rewrite filter_app.
    destruct (isSmartWallet (ExactEvmPayload.signature payload)) eqn:Hsw.
    + split; [discriminate | ]. intros _ q res Hin.
      apply in_app_or in Hin. destruct Hin as [Hin | Hin]; [exfalso; eapply Hnq; eassumption | ].
      destruct (VerifyResponse.isValid valid) eqn:Hvalid;
        [ | simpl in Hk; unfold ret in Hk; inversion Hk; subst; destruct Hin].
      destruct (Hwallet eq_refl _ eq_refl Hvalid) as (bytecode1 & Hreads & Hready).
      rewrite Hreads. simpl negb in Hk. cbv iota in Hk.
      run_cases Hk.
      all: eexists; eexists; split; [reflexivity | split; [assumption | ]].
      all: first [left; assumption | right; eexists; split; [reflexivity | assumption]].
    + split; [ | discriminate]. intros _.
      rewrite (Heoa eq_refl). run_cases Hk. all: reflexivity.
Qed.

Lemma X10_bytecode_reads_by_shape_witness :
  let run := settle Demo.lib Demo.client
               (Demo.paymentPayload Demo.eoaSignature Demo.goodAuthorization)
               Demo.paymentRequirements
               (Demo.world (Ret 2000000) [Ret (Some "0x")]) in
  filter isGetCode (snd run) = []
  /\ option_map SettleResponse.success
       (match fst (fst run) with Ret res => Some res | Throw _ => None end) = Some true.
Proof.
  intros run. split; [ | reflexivity].
  exact (proj1 (X10_bytecode_reads_by_shape _ _ _ _ _ _ _ _ (run_eta run)) eq_refl).
Defined.

(** ** After an accepted verification *)

(** X11: when the verification inside [settle] accepts a signature of the EOA
    shape, what happens next is decided by the decomposition of the
    signature alone: if [parseSignature] succeeds, [settle] submits a
    transaction, and if it throws (as for a signature that is too short),
    [settle] throws that error without any call after the verification.  For
    the contract-wallet shape with code found at settlement, a transaction is
    submitted as soon as the deployment wrapper can be parsed. *)
Theorem X11_settle_after_accepted_verification {World} (lib : Lib) (c : Client World)
    (p : PaymentPayload.t) (r : PaymentRequirements.t) (w w1 : World)
    (valid : VerifyResponse.t) (tr1 : list Event) :
  verify lib c p r w = (Ret valid, w1, tr1) ->
  VerifyResponse.isValid valid = true ->
  let payload := PaymentPayload.payload p in
  let signature := ExactEvmPayload.signature payload in
  let from := Authorization.from (ExactEvmPayload.authorization payload) in
  (isSmartWallet signature = false ->
   (forall parsedSig, parseSignature lib signature = Ret parsedSig ->
    exists q, firstWrite (snd (settle lib c p r w)) = Some q)
   /\ (forall e, parseSignature lib signature = Throw e ->
       settle lib c p r w = (Throw e, w1, tr1)))
  /\ (isSmartWallet signature = true ->
      forall bytecode w2 erc6492Data,
        getCode c from w1 = (Ret bytecode, w2) ->
        noBytecode bytecode = false ->
        parseErc6492Signature lib signature = Ret erc6492Data ->
        exists q, firstWrite (snd (settle lib c p r w)) = Some q).
Proof.
  intros Hv Hvalid payload signature from.
  destruct (verify_accepts_inv _ _ _ _ _ _ _ _ Hv Hvalid)
    as (_ & _ & _ & (vb & va & _ & _ & Evb & Eva & _) & (b & m & v & _ & _ & Ev & _) & _).
  pose proof (verify_no_write _ _ _ _ _ _ _ _ Hv) as Hnw.
  assert (Hfirst : forall t2, firstWrite (tr1 ++ t2) = firstWrite t2).
  { clear - Hnw. induction tr1 as [ | ev t IH]; intros t2; simpl in *.
    - reflexivity.
    - destruct ev; simpl in *; try discriminate Hnw; apply IH; assumption. }
  fold payload in Evb, Eva, Ev.
  split; [intros Hsw; split | intros Hsw].
  - intros parsedSig Hparse.
    unfold settle. unfold bind at 1. rewrite Hv, Hvalid.
    fold payload. fold signature. rewrite Hsw.
    unfold_monad. simpl. rewrite Hparse, Ev, Eva, Evb. simpl.
    destruct (writeContract c _ w1) as [[tx | e] w2] eqn:Hw; simpl.
    + destruct (waitForTransactionReceipt c tx w2) as [[[[ | ]] | e] w3]; simpl;
        rewrite Hfirst; simpl; eexists; reflexivity.
    + rewrite Hfirst; simpl; eexists; reflexivity.
  - intros e Hparse.
    unfold settle. unfold bind at 1. rewrite Hv, Hvalid.
    fold payload. fold signature. rewrite Hsw.
    unfold_monad. simpl. rewrite Hparse. simpl. rewrite app_nil_r. reflexivity.
  - intros bytecode w2 erc6492Data Hcode Hfound Hparse.
    unfold settle. unfold bind at 1. rewrite Hv, Hvalid.
    fold payload. fold signature. fold from. rewrite Hsw.
    unfold_monad. simpl. rewrite Hcode. simpl. rewrite Hfound.
    rewrite Hparse, Ev, Eva, Evb. simpl.
    destruct (writeContract c _ w2) as [[tx | e] w3] eqn:Hw; simpl.
    + destruct (waitForTransactionReceipt c tx w3) as [[[[ | ]] | e] w4]; simpl;
        rewrite Hfirst; simpl; eexists; reflexivity.
    + rewrite Hfirst; simpl; eexists; reflexivity.
Qed.

(** The compact signature of 64 bytes is of the EOA shape and passes the
    verification, and [settle] then throws the error of [parseSignature]
    without submitting anything. *)
Lemma X11_settle_after_accepted_verification_witness :
  let payload := Demo.paymentPayload Demo.compactSignature Demo.goodAuthorization in
  let w := Demo.world (Ret 2000000) [] in
  let verified := verify Demo.lib Demo.client payload Demo.paymentRequirements w in
  let settled := settle Demo.lib Demo.client payload Demo.paymentRequirements w in
  accepts (fst (fst verified))
  /\ fst (fst settled) = Throw (Error "Invalid yParityOrV value")
  /\ snd settled = snd verified.
Proof.
  intros payload w verified settled.
  destruct (X11_settle_after_accepted_verification Demo.lib Demo.client payload
              Demo.paymentRequirements w (snd (fst verified))
              {| VerifyResponse.isValid := true;
                 VerifyResponse.invalidReason := None;
                 VerifyResponse.payer := Demo.payer |}
              (snd verified) eq_refl eq_refl) as [Heoa _].
  destruct (Heoa eq_refl) as [_ Hthrow].
  specialize (Hthrow (Error "Invalid yParityOrV value") eq_refl).
  fold settled in Hthrow. rewrite Hthrow.
  split; [split; reflexivity | split; reflexivity].
Defined.

(** * The Solana client *)

Ltac svm_unfold :=
  unfold Svm.createPaymentHeader, Svm.createAndSignPayment,
    Svm.createTransferTransactionMessage, Svm.createTransferInstructions,
    Svm.bind, Svm.ret, Svm.lift, Svm.await_fetchMint,
    Svm.await_estimateComputeUnitLimit, Svm.await_getLatestBlockhash,
    Svm.await_sign in *.

Ltac svm_tidy :=
  repeat match goal with
    | H : _ /\ _ |- _ => destruct H
    | H : exists _, _ |- _ => destruct H
    | H : False |- _ => destruct H
    | H : _ \/ _ |- _ => destruct H
    | H : In _ (_ :: _) |- _ => simpl in H
    | H : In _ [] |- _ => destruct H
    | H : _ = _ |- _ => discriminate H
    | H : (_, _) = (_, _) |- _ => inversion H; clear H; subst
    | H : Ret _ = Ret _ |- _ => inversion H; clear H; subst
    | H : Throw _ = Throw _ |- _ => inversion H; clear H; subst
    | H : Svm.EFetchMint _ _ _ = Svm.EFetchMint _ _ _ |- _ => inversion H; clear H; subst
    | H : Svm.EEstimateComputeUnitLimit _ _ _ = Svm.EEstimateComputeUnitLimit _ _ _ |- _ =>
        inversion H; clear H; subst
    | H : Svm.EGetLatestBlockhash _ _ = Svm.EGetLatestBlockhash _ _ |- _ =>
        inversion H; clear H; subst
    | H : Svm.ESign _ _ = Svm.ESign _ _ |- _ => inversion H; clear H; subst
    end.

Ltac svm_step :=
  match goal with
  | H : context [match ?x with _ => _ end] |- _ =>
      innermost x; destruct x eqn:?; simpl in H; svm_tidy
  end.

Ltac svm_cases H := svm_unfold; simpl in H; svm_tidy; repeat svm_step.

(** X12: an asset whose mint is owned by a program other than the token
    program and the token-2022 program is refused before anything else is
    done: once [fetchMint] has returned such a mint, [createPaymentHeader]
    throws the error of the unknown token program, and the mint fetch is the
    only call of the run: nothing is simulated, no blockhash is fetched and
    nothing is signed. *)
Theorem X12_unknown_token_program_is_refused {World} (sdk : Svm.Sdk) (lib : Lib)
    (node : Svm.Node World) (client : Svm.TransactionSigner) (x402Version : Z)
    (r : Svm.PaymentRequirements) (config : option Svm.X402Config)
    (w w' : World) (o : outcome string) (tr : list Svm.Event)
    (rpc : Svm.Rpc) (asset : string) (mint : Svm.Mint) :
  Svm.createPaymentHeader sdk lib node client x402Version r config w = (o, w', tr) ->
  In (Svm.EFetchMint rpc asset (Ret mint)) tr ->
  Svm.programAddress mint <> Svm.TOKEN_PROGRAM_ADDRESS sdk ->
  Svm.programAddress mint <> Svm.TOKEN_2022_PROGRAM_ADDRESS sdk ->
  o = Throw (Error "Asset was not created by a known token program")
  /\ tr = [Svm.EFetchMint rpc asset (Ret mint)].
Proof.
  intros H Hin Hp1 Hp2. svm_cases H.
  all: repeat match goal with
         | E : negb (_ =? _)%string && negb (_ =? _)%string = false |- _ =>
             apply andb_false_iff in E; destruct E as [E | E];
             apply negb_false_iff in E; apply String.eqb_eq in E
         end.
  all: try congruence.
  all: split; reflexivity.
Qed.

Lemma X12_unknown_token_program_is_refused_witness :
  let run := Svm.createPaymentHeader Svm.demoSdk Demo.lib Svm.demoNode Svm.demoClient 1
               Svm.demoRequirements None "SomeOtherProgram" in
  fst (fst run) = Throw (Error "Asset was not created by a known token program")
  /\ List.length (snd run) = 1%nat.
Proof.
  intros run.
  assert (Hin : In (Svm.EFetchMint "https://api.devnet.solana.com" "usdc-mint"
                      (Ret {| Svm.programAddress := "SomeOtherProgram";
                              Svm.decimals := 6 |})) (snd run))
    by (vm_compute; tauto).
  destruct (X12_unknown_token_program_is_refused _ _ _ _ _ _ _ _ _ _ _ _ _ _
              (run_eta run) Hin) as [Ho Htr].
  - discriminate.
  - discriminate.
  - split; [exact Ho | rewrite Htr; reflexivity].
Defined.

(** X13: whatever [createPaymentHeader] gives to the signers is the
    transfer that the requirements ask for.  The signed message is version 0
    with compute unit price 1, the fee payer of the requirements, and a single
    transfer instruction: of the integer maxAmountRequired, with the decimals
    of the mint that was fetched for the asset, from the associated token
    account of the client to that of [payTo], both derived for the asset under
    the program that owns the mint, which is one of the two token programs.
    It is completed by the compute unit limit that the node estimated for
    exactly this message, and by the latest blockhash.  The calls of such a
    run are the mint fetch, the estimate, the blockhash and the signature, in
    this order and nothing else. *)
Theorem X13_signed_message_is_the_required_transfer {World} (sdk : Svm.Sdk) (lib : Lib)
    (node : Svm.Node World) (client : Svm.TransactionSigner) (x402Version : Z)
    (r : Svm.PaymentRequirements) (config : option Svm.X402Config)
    (w w' : World) (o : outcome string) (tr : list Svm.Event)
    (tx : Svm.TransactionMessage) (signed : outcome Svm.SignedTransaction) :
  Svm.createPaymentHeader sdk lib node client x402Version r config w = (o, w', tr) ->
  In (Svm.ESign tx signed) tr ->
  exists rpc mint source destination amount units latest,
    Svm.getRpcClient sdk (Svm.network r) (Svm.rpcUrlOf config) = Ret rpc
    /\ (Svm.programAddress mint = Svm.TOKEN_PROGRAM_ADDRESS sdk
        \/ Svm.programAddress mint = Svm.TOKEN_2022_PROGRAM_ADDRESS sdk)
    /\ Svm.findAssociatedTokenPda sdk (Svm.asset r) (Svm.address client)
         (Svm.programAddress mint) = Ret source
    /\ Svm.findAssociatedTokenPda sdk (Svm.asset r) (Svm.payTo r)
         (Svm.programAddress mint) = Ret destination
    /\ BigInt lib (Svm.maxAmountRequired r) = Ret amount
    /\ let txToSimulate :=
         [Svm.CreateTransactionMessage 0;
          Svm.SetComputeUnitPrice 1;
          Svm.SetFeePayer (Svm.feePayer r);
          Svm.AppendInstructions
            [Svm.TransferChecked source (Svm.asset r) destination client amount
               (Svm.decimals mint) (Svm.programAddress mint)]] in
       tx = txToSimulate ++
            [Svm.PrependInstruction (Svm.SetComputeUnitLimit units);
             Svm.SetLifetimeUsingBlockhash latest]
       /\ tr = [Svm.EFetchMint rpc (Svm.asset r) (Ret mint);
                Svm.EEstimateComputeUnitLimit rpc txToSimulate (Ret units);
                Svm.EGetLatestBlockhash rpc (Ret latest);
                Svm.ESign tx signed].
Proof.
  intros H Hin. svm_cases H.
  all: repeat match goal with
         | E : negb (_ =? _)%string && negb (_ =? _)%string = false |- _ =>
             apply andb_false_iff in E; destruct E as [E | E];
             apply negb_false_iff in E; apply String.eqb_eq in E
         end.
  all: do 7 eexists.
  all: split; [reflexivity | ].
  all: split; [first [left; eassumption | right; eassumption] | ].
  all: split; [eassumption | ].
  all: split; [eassumption | ].
  all: split; [reflexivity | ].
  all: split; reflexivity.
Qed.

Lemma X13_signed_message_is_the_required_transfer_witness :
  let run := Svm.createPaymentHeader Svm.demoSdk Demo.lib Svm.demoNode Svm.demoClient 1
               Svm.demoRequirements None (Svm.TOKEN_2022_PROGRAM_ADDRESS Svm.demoSdk) in
  let tx :=
    [Svm.CreateTransactionMessage 0;
     Svm.SetComputeUnitPrice 1;
     Svm.SetFeePayer (Some "facilitator");
     Svm.AppendInstructions
       [Svm.TransferChecked "ata:payer:usdc-mint" "usdc-mint" "ata:merchant:usdc-mint"
          Svm.demoClient 2500 6 (Svm.TOKEN_2022_PROGRAM_ADDRESS Svm.demoSdk)];
     Svm.PrependInstruction (Svm.SetComputeUnitLimit 6500);
     Svm.SetLifetimeUsingBlockhash
       {| Svm.blockhash := "hash"; Svm.lastValidBlockHeight := 1000 |}] in
  In (Svm.ESign tx (Ret "signed")) (snd run)
  /\ List.length (snd run) = 4%nat.
Proof.
  intros run tx.
  assert (Hin : In (Svm.ESign tx (Ret "signed")) (snd run)) by (vm_compute; tauto).
  destruct (X13_signed_message_is_the_required_transfer _ _ _ _ _ _ _ _ _ _ _ _ _
              (run_eta run) Hin)
    as (rpc & mint & source & destination & amount & units & latest
        & _ & _ & _ & _ & _ & _ & Htr).
  split; [exact Hin | rewrite Htr; reflexivity].
Defined.

(** X14: [createPaymentHeader] asks for at most one signature, as the last
    call of its run and only after the mint fetch, the estimate and the
    blockhash have succeeded.  A failure of any of the four calls is the
    outcome of the function, and so is a failure to resolve the network, which
    is met before any call.  A header that is returned is the encoding of a
    payload that carries the scheme and the network of the requirements, the
    protocol version given and the wire encoding of what the signers
    returned. *)
Theorem X14_header_and_failures {World} (sdk : Svm.Sdk) (lib : Lib)
    (node : Svm.Node World) (client : Svm.TransactionSigner) (x402Version : Z)
    (r : Svm.PaymentRequirements) (config : option Svm.X402Config)
    (w w' : World) (o : outcome string) (tr : list Svm.Event) :
  Svm.createPaymentHeader sdk lib node client x402Version r config w = (o, w', tr) ->
  (List.length (filter Svm.isSign tr) <= 1)%nat
  /\ existsb Svm.isSign (removelast tr) = false
  /\ (forall e, Svm.getRpcClient sdk (Svm.network r) (Svm.rpcUrlOf config) = Throw e ->
      o = Throw e /\ tr = [])
  /\ (forall rpc asset e, In (Svm.EFetchMint rpc asset (Throw e)) tr -> o = Throw e)
  /\ (forall rpc tx e, In (Svm.EEstimateComputeUnitLimit rpc tx (Throw e)) tr ->
      o = Throw e)
  /\ (forall rpc e, In (Svm.EGetLatestBlockhash rpc (Throw e)) tr -> o = Throw e)
  /\ (forall tx e, In (Svm.ESign tx (Throw e)) tr -> o = Throw e)
  /\ (forall header, o = Ret header ->
      exists tx signed,
        last tr (Svm.ESign [] (Ret "")) = Svm.ESign tx (Ret signed)
        /\ header = Svm.encodePayment sdk
                      {| Svm.payload_scheme := Svm.scheme r;
                         Svm.payload_network := Svm.network r;
                         Svm.x402Version := x402Version;
                         Svm.transaction :=
                           Svm.getBase64EncodedWireTransaction sdk signed |}).
Proof.
  intros H. svm_cases H.
  all: simpl; repeat split; intros; svm_tidy; try lia; try reflexivity; try congruence.
  all: do 2 eexists; split; reflexivity.
Qed.

Lemma X14_header_and_failures_witness :
  let run := Svm.createPaymentHeader Svm.demoSdk Demo.lib Svm.demoNode Svm.demoClient 1
               Svm.demoRequirements None (Svm.TOKEN_PROGRAM_ADDRESS Svm.demoSdk) in
  fst (fst run) = Ret "header:base64:signed"
  /\ existsb Svm.isSign (removelast (snd run)) = false.
Proof.
  intros run. split; [reflexivity | ].
  exact (proj1 (proj2 (X14_header_and_failures _ _ _ _ _ _ _ _ _ _ _ (run_eta run)))).
Defined.

(** * Two more properties of the facilitator *)

(** X15: the case of the letters of [payTo] does not matter to either
    function: with a well-formed [payTo] replaced by the same address in
    another casing (lower case, upper case or checksummed), [verify] and
    [settle] make the same run. *)
Theorem X15_payTo_case_does_not_matter {World} (lib : Lib) (c : Client World)
    (p : PaymentPayload.t) (r : PaymentRequirements.t) (payTo : string) (w : World) :
  isAddress (PaymentRequirements.payTo r) = true ->
  isAddress payTo = true ->
  toLowerCase payTo = toLowerCase (PaymentRequirements.payTo r) ->
  verify lib c p (withPayTo r payTo) w = verify lib c p r w
  /\ settle lib c p (withPayTo r payTo) w = settle lib c p r w.
Proof.
  intros Hr Hp Hsame.
  assert (Hnormal : getAddress lib payTo = getAddress lib (PaymentRequirements.payTo r)).
  { unfold getAddress. rewrite Hr, Hp. simpl. f_equal.
    apply checksumAddress_eq_iff; assumption. }
  assert (Hverify : forall w', verify lib c p (withPayTo r payTo) w' = verify lib c p r w').
  { intros w'. unfold verify.
    change (PaymentRequirements.payTo (withPayTo r payTo)) with payTo.
    rewrite Hnormal. reflexivity. }
  split; [apply Hverify | ].
  unfold settle, bind. rewrite Hverify. reflexivity.
Qed.

Lemma X15_payTo_case_does_not_matter_witness :
  let payload := Demo.paymentPayload Demo.eoaSignature
                   (Demo.authorization Demo.merchant "1000000" "1699999400" "1700000300") in
  let w := Demo.world (Ret 2000000) [] in
  settle Demo.lib Demo.client payload
    (withPayTo (Demo.paymentRequirementsTo Demo.merchant) Demo.merchantUpperCase) w
  = settle Demo.lib Demo.client payload (Demo.paymentRequirementsTo Demo.merchant) w.
Proof.
  intros payload w.
  exact (proj2 (X15_payTo_case_does_not_matter Demo.lib Demo.client payload
                  (Demo.paymentRequirementsTo Demo.merchant) Demo.merchantUpperCase w
                  eq_refl eq_refl eq_refl)).
Defined.

(** X16: the reasons are a closed list.  A rejection by [verify] carries one
    of its nine reasons; a failure returned by [settle] carries one of these
    or invalid_transaction_state, and never invalid_scheme: the default that
    [settle] has for a rejection without a reason is never used, because
    [verify] always gives one. *)
Theorem X16_closed_list_of_reasons {World} (lib : Lib) (c : Client World)
    (p : PaymentPayload.t) (r : PaymentRequirements.t) (w : World) :
  (forall w' res tr,
     verify lib c p r w = (Ret res, w', tr) ->
     VerifyResponse.isValid res = false ->
     exists reason,
       VerifyResponse.invalidReason res = Some reason /\ In reason verifyReasons)
  /\ (forall w' res tr,
        settle lib c p r w = (Ret res, w', tr) ->
        SettleResponse.success res = false ->
        exists reason,
          SettleResponse.errorReason res = Some reason
          /\ In reason (verifyReasons ++ [invalid_transaction_state])
          /\ reason <> invalid_scheme).
Proof.
  assert (Hverify : forall w' res tr,
             verify lib c p r w = (Ret res, w', tr) ->
             VerifyResponse.isValid res = false ->
             exists reason,
               VerifyResponse.invalidReason res = Some reason /\ In reason verifyReasons).
  { intros w' res tr H Hinvalid. unfold verify in H. run_cases H.
    all: try discriminate Hinvalid.
    all: eexists; split; [reflexivity | simpl; tauto]. }
  split; [exact Hverify | ].
  intros w' res tr H Hfail.
  settle_inv H.
  destruct (VerifyResponse.isValid valid) eqn:Hvalid.
  - simpl negb in Hk. cbv iota in Hk. run_cases Hk.
    all: try discriminate Hfail.
    all: eexists; split; [reflexivity | split; [simpl; tauto | discriminate]].
  - destruct (Hverify _ _ _ Hv Hvalid) as (reason & Hreason & Hin).
    simpl in Hk. unfold ret in Hk. inversion Hk; subst. simpl.
    rewrite Hreason. simpl.
    exists reason. split; [reflexivity | split].
    + simpl in Hin |- *. tauto.
    + intros ->. simpl in Hin. tidy.
Qed.

Lemma X16_closed_list_of_reasons_witness :
  let payload := Demo.paymentPayload Demo.eoaSignature Demo.goodAuthorization in
  let w := Demo.reverting (Demo.world (Ret 2000000) []) in
  exists reason,
    failsWith (fst (fst (settle Demo.lib Demo.client payload Demo.paymentRequirements w)))
      reason
    /\ reason <> invalid_scheme.
Proof.
  intros payload w.
  destruct (X16_closed_list_of_reasons Demo.lib Demo.client payload
              Demo.paymentRequirements w) as [_ Hsettle].
  destruct (Hsettle (snd (fst (settle Demo.lib Demo.client payload
                                 Demo.paymentRequirements w)))
              {| SettleResponse.success := false;
                 SettleResponse.errorReason := Some invalid_transaction_state;
                 SettleResponse.transaction := "0xtxhash";
                 SettleResponse.network := "base-sepolia";
                 SettleResponse.payer := Demo.payer |}
              (snd (settle Demo.lib Demo.client payload Demo.paymentRequirements w))
              eq_refl eq_refl) as (reason & Hreason & _ & Hnot).
  exists reason. split; [ | exact Hnot].
  simpl in Hreason. inversion Hreason; subst reason. split; reflexivity.
Defined.

(** * The tests of the facilitator, for all the values of their parameters *)

Lemma Mock_BigInt_toString (z : Z) : Mock.BigInt (Mock.toString z) = Ret z.
Proof.
  unfold Mock.BigInt, Mock.toString.
  rewrite DecimalString.NilZero.isi.
  - rewrite DecimalZ.of_to. reflexivity.
  - destruct z; simpl; try discriminate.
    intros H. inversion H as [H']. exact (DecimalPos.Unsigned.to_uint_nonnil _ H').
  - destruct z; simpl; try discriminate.
    intros H. inversion H as [H']. exact (DecimalPos.Unsigned.to_uint_nonnil _ H').
Qed.

Lemma length_append (a b : string) :
  String.length (append a b) = (String.length a + String.length b)%nat.
Proof. induction a as [ | c a IH]; simpl; [reflexivity | rewrite IH; reflexivity]. Qed.

Lemma length_zeros (n : nat) : String.length (Mock.zeros n) = n.
Proof. induction n as [ | n IH]; simpl; [reflexivity | rewrite IH; reflexivity]. Qed.

(** The shape of the signatures of the payload factory: they count as
    contract-wallet signatures exactly when more than 130 characters are
    asked for or the marker is appended. *)
Lemma isSmartWallet_mockSignature (n : Z) (isEip6492 : bool) :
  isSmartWallet (Mock.mockSignature n isEip6492) = (n >? 130) || isEip6492.
Proof.
  unfold isSmartWallet, signatureLength, Mock.mockSignature.
  assert (Hbase : String.length Mock.baseSignature = 132%nat) by reflexivity.
  destruct (Z.gtb_spec n 130) as [Hn | Hn]; destruct isEip6492; simpl orb.
  - replace (prefix "0x" _) with true by reflexivity.
    rewrite !length_append, length_zeros, Hbase. simpl String.length.
    apply Z.gtb_lt. lia.
  - replace (prefix "0x" _) with true by reflexivity.
    rewrite !length_append, length_zeros, Hbase.
    apply Z.gtb_lt. lia.
  - reflexivity.
  - reflexivity.
Qed.

Lemma hasChar_append (c : ascii) (a b : string) :
  Mock.hasChar c (append a b) = Mock.hasChar c a || Mock.hasChar c b.
Proof.
  induction a as [ | c' a IH]; simpl; [reflexivity | ].
  rewrite IH, orb_assoc. reflexivity.
Qed.

Lemma hasChar_zeros (n : nat) : Mock.hasChar "E" (Mock.zeros n) = false.
Proof. induction n as [ | n IH]; simpl; [reflexivity | exact IH]. Qed.

Lemma includes_without_first_char (s : string) :
  Mock.hasChar "E" s = false -> Mock.includes "EIP6492" s = false.
Proof.
  induction s as [ | c s IH]; intros H.
  - reflexivity.
  - simpl in H. apply orb_false_elim in H. destruct H as [Hc Hs].
    change (Mock.includes "EIP6492" (String c s))
      with (prefix "EIP6492" (String c s) || Mock.includes "EIP6492" s).
    rewrite (IH Hs), orb_false_r.
    change (prefix "EIP6492" (String c s))
      with (if ascii_dec "E" c then prefix "IP6492" s else false).
    destruct (ascii_dec "E" c) as [<- | _]; [discriminate Hc | reflexivity].
Qed.

Lemma includes_suffix (s : string) :
  Mock.includes "EIP6492" (append s "EIP6492") = true.
Proof.
  induction s as [ | c s IH].
  - reflexivity.
  - change (Mock.includes "EIP6492" (append (String c s) "EIP6492"))
      with (prefix "EIP6492" (String c (append s "EIP6492"))
            || Mock.includes "EIP6492" (append s "EIP6492")).
    rewrite IH. apply orb_true_r.
Qed.

(** The mock of the wrapper parser finds deployment data exactly in the
    signatures built with the marker. *)
Lemma parse_mockSignature (n : Z) (isEip6492 : bool) :
  exists erc6492Data,
    Mock.parseErc6492Signature (Mock.mockSignature n isEip6492) = Ret erc6492Data
    /\ hasDeploymentInfo erc6492Data = isEip6492
    /\ Erc6492.signature erc6492Data = Mock.mockSignature n isEip6492.
Proof.
  unfold Mock.parseErc6492Signature.
  destruct isEip6492.
  - unfold Mock.mockSignature at 1. rewrite includes_suffix.
    eexists. split; [reflexivity | split; reflexivity].
  - rewrite includes_without_first_char.
    + eexists. split; [reflexivity | split; reflexivity].
    + unfold Mock.mockSignature. destruct (n >? 130).
      * rewrite hasChar_append, hasChar_zeros. reflexivity.
      * reflexivity.
Qed.

Lemma getAddress_well_formed (lib : Lib) (address : string) :
  isAddress address = true -> getAddress lib address = Ret (checksumAddress lib address).
Proof. intros H. unfold getAddress. rewrite H. reflexivity. Qed.

#[local] Arguments isSmartWallet : simpl never.
#[local] Arguments getAddress : simpl never.
#[local] Arguments checksumAddress : simpl never.
#[local] Arguments seconds : simpl never.
#[local] Arguments Mock.BigInt : simpl never.
#[local] Arguments Mock.toString : simpl never.
#[local] Arguments Mock.mockSignature : simpl never.
#[local] Arguments Mock.parseErc6492Signature : simpl never.
#[local] Arguments String.eqb : simpl never.
#[local] Arguments Z.ltb : simpl never.
#[local] Arguments Z.gtb : simpl never.
#[local] Arguments Z.sub : simpl never.

(** The run of [verify] under the mocks. *)
Lemma mocked_verify_run (hash : string -> list Z) (chain : ChainConfig.t)
    (parsedSig : Signature.t) (bytecode : option string)
    (now1 now2 signatureLength : Z) (from : string) (isEip6492 : bool)
    (t1 t2 : Z) (later : list Z) :
  seconds t1 + 6 <= seconds now2 + 300 ->
  seconds now1 - 600 <= seconds t2 ->
  let payload := Mock.createMockPayload now1 now2 signatureLength from isEip6492 in
  let isSmart := (signatureLength >? 130) || isEip6492 in
  exists tr,
    verify (Mock.lib hash chain parsedSig) (Mock.createMockWallet bytecode)
      payload Mock.mockPaymentRequirements (t1 :: t2 :: later)
    = (Ret (if isSmart && noBytecode bytecode && negb isEip6492
            then {| VerifyResponse.isValid := false;
                    VerifyResponse.invalidReason :=
                      Some invalid_exact_evm_payload_undeployed_smart_wallet;
                    VerifyResponse.payer := from |}
            else {| VerifyResponse.isValid := true;
                    VerifyResponse.invalidReason := None;
                    VerifyResponse.payer := from |}),
       later, tr)
    /\ filter isGetCode tr = (if isSmart then [EGetCode from (Ret bytecode)] else []).
Proof.
  intros Hbefore Hafter payload isSmart.
  destruct (parse_mockSignature signatureLength isEip6492) as (d & Hparse & Hinfo & _).
  pose proof (isSmartWallet_mockSignature signatureLength isEip6492) as Hshape.
  fold isSmart in Hshape.
  assert (Hvb : (seconds now2 + 300 <? seconds t1 + 6) = false) by (apply Z.ltb_ge; lia).
  assert (Hva : (seconds now1 - 600 >? seconds t2) = false)
    by (rewrite Z.gtb_ltb; apply Z.ltb_ge; lia).
  unfold verify. unfold_monad. simpl.
  rewrite String.eqb_refl. simpl.
  rewrite !Mock_BigInt_toString. simpl. rewrite Hvb. simpl. rewrite Hva. simpl.
  rewrite Hshape.
  destruct isSmart; simpl.
  - destruct (noBytecode bytecode); simpl.
    + rewrite Hparse. simpl. rewrite Hinfo.
      destruct isEip6492; simpl; eexists; split; reflexivity.
    + eexists; split; reflexivity.
  - eexists; split; reflexivity.
Qed.

(** X17: what the tests of [verify] check holds for every signature length,
    marker, payer and bytecode of the mocks, whenever the clock has not
    advanced by five minutes since the payload was built: the payment is
    rejected as an undeployed smart wallet exactly when the signature is of
    the contract-wallet shape (more than 130 characters asked for, or the
    marker), the bytecode is empty and there is no marker, and accepted
    otherwise; the bytecode is read, once and for the payer, exactly for the
    contract-wallet shape. *)
Theorem X17_mocked_verify (hash : string -> list Z) (chain : ChainConfig.t)
    (parsedSig : Signature.t) (bytecode : option string)
    (now1 now2 signatureLength : Z) (from : string) (isEip6492 : bool)
    (t1 t2 : Z) (later : list Z) :
  seconds t1 + 6 <= seconds now2 + 300 ->
  seconds now1 - 600 <= seconds t2 ->
  let payload := Mock.createMockPayload now1 now2 signatureLength from isEip6492 in
  let isSmart := (signatureLength >? 130) || isEip6492 in
  let run := verify (Mock.lib hash chain parsedSig) (Mock.createMockWallet bytecode)
               payload Mock.mockPaymentRequirements (t1 :: t2 :: later) in
  fst (fst run)
    = Ret (if isSmart && noBytecode bytecode && negb isEip6492
           then {| VerifyResponse.isValid := false;
                   VerifyResponse.invalidReason :=
                     Some invalid_exact_evm_payload_undeployed_smart_wallet;
                   VerifyResponse.payer := from |}
           else {| VerifyResponse.isValid := true;
                   VerifyResponse.invalidReason := None;
                   VerifyResponse.payer := from |})
  /\ filter isGetCode (snd run) = (if isSmart then [EGetCode from (Ret bytecode)] else [])
  /\ snd (fst run) = later.
Proof.
  intros Hbefore Hafter payload isSmart run.
  destruct (mocked_verify_run hash chain parsedSig bytecode now1 now2 signatureLength
              from isEip6492 t1 t2 later Hbefore Hafter) as (tr & Hrun & Hreads).
  subst run. fold payload in Hrun. rewrite Hrun. simpl.
  split; [reflexivity | split; [exact Hreads | reflexivity]].
Qed.

(** The test of the accepted counterfactual wallet and the test of the EOA
    that is not asked for its bytecode. *)
Lemma X17_mocked_verify_witness :
  let client := Mock.createMockWallet (Some "0x") in
  let lib := Mock.lib Demo.keccak256
               {| ChainConfig.usdcAddress := Demo.asset; ChainConfig.usdcName := "USDC" |}
               Mock.parsedSignature in
  let now := 1700000000000 in
  accepts (fst (fst (verify lib client
                       (Mock.createMockPayload now now 200 Demo.payer true)
                       Mock.mockPaymentRequirements [now; now])))
  /\ filter isGetCode
       (snd (verify lib client (Mock.createMockPayload now now 130 Demo.payer false)
               Mock.mockPaymentRequirements [now; now])) = [].
Proof.
  intros client lib now.
  destruct (X17_mocked_verify Demo.keccak256
              {| ChainConfig.usdcAddress := Demo.asset; ChainConfig.usdcName := "USDC" |}
              Mock.parsedSignature (Some "0x") now now 200 Demo.payer true now now [])
    as (Hwrapped & _); [vm_compute; discriminate | vm_compute; discriminate | ].
  destruct (X17_mocked_verify Demo.keccak256
              {| ChainConfig.usdcAddress := Demo.asset; ChainConfig.usdcName := "USDC" |}
              Mock.parsedSignature (Some "0x") now now 130 Demo.payer false now now [])
    as (_ & Heoa & _); [vm_compute; discriminate | vm_compute; discriminate | ].
  split.
  - fold client lib in Hwrapped. rewrite Hwrapped. split; reflexivity.
  - exact Heoa.
Defined.

(** X18: what the tests of [settle] check holds for every signature length,
    marker, payer, bytecode and decomposed signature of the mocks: [settle]
    fails with the undeployed-wallet reason, an empty transaction and no
    submission exactly when the signature is of the contract-wallet shape and
    the bytecode is empty, with or without the marker; otherwise it succeeds
    with the hash of its single submission. *)
Theorem X18_mocked_settle (hash : string -> list Z) (chain : ChainConfig.t)
    (parsedSig : Signature.t) (bytecode : option string)
    (now1 now2 signatureLength : Z) (from : string) (isEip6492 : bool)
    (t1 t2 : Z) (later : list Z) :
  seconds t1 + 6 <= seconds now2 + 300 ->
  seconds now1 - 600 <= seconds t2 ->
  let payload := Mock.createMockPayload now1 now2 signatureLength from isEip6492 in
  let isSmart := (signatureLength >? 130) || isEip6492 in
  let run := settle (Mock.lib hash chain parsedSig) (Mock.createMockWallet bytecode)
               payload Mock.mockPaymentRequirements (t1 :: t2 :: later) in
  if isSmart && noBytecode bytecode
  then fst (fst run)
         = Ret {| SettleResponse.success := false;
                  SettleResponse.errorReason :=
                    Some invalid_exact_evm_payload_undeployed_smart_wallet;
                  SettleResponse.transaction := "";
                  SettleResponse.network := "base-sepolia";
                  SettleResponse.payer := from |}
       /\ filter isWrite (snd run) = []
  else fst (fst run)
         = Ret {| SettleResponse.success := true;
                  SettleResponse.errorReason := None;
                  SettleResponse.transaction := "0xtxhash";
                  SettleResponse.network := "base-sepolia";
                  SettleResponse.payer := from |}
       /\ List.length (filter isWrite (snd run)) = 1%nat.
Proof.
  intros Hbefore Hafter payload isSmart run.
  destruct (mocked_verify_run hash chain parsedSig bytecode now1 now2 signatureLength
              from isEip6492 t1 t2 later Hbefore Hafter) as (tr & Hrun & Hreads).
  fold payload in Hrun. fold isSmart in Hrun.
  pose proof (verify_no_submission _ _ _ _ _ _ _ _ Hrun) as Hns.
  destruct (no_submission_filter _ Hns) as (Hw & _).
  destruct (parse_mockSignature signatureLength isEip6492) as (d & Hparse & Hinfo & _).
  pose proof (isSmartWallet_mockSignature signatureLength isEip6492) as Hshape.
  fold isSmart in Hshape.
  subst run. unfold settle. unfold_monad. rewrite Hrun.
  destruct isSmart; simpl andb.
  - destruct (noBytecode bytecode) eqn:Hempty; simpl andb.
    + destruct isEip6492; simpl negb; cbv iota.
      * simpl. rewrite Hshape. simpl. rewrite Hempty. simpl.
        rewrite filter_app, Hw. split; reflexivity.
      * simpl. rewrite filter_app, Hw. split; reflexivity.
    + simpl. rewrite Hshape. simpl. rewrite Hempty. simpl.
      rewrite Hparse. simpl. rewrite !Mock_BigInt_toString. simpl.
      rewrite filter_app, Hw. split; reflexivity.
  - simpl. rewrite Hshape. simpl.
    rewrite !Mock_BigInt_toString. simpl.
    rewrite filter_app, Hw. split; reflexivity.
Qed.

(** The test of the undeployed wallet at settlement, bytecode undefined, and
    the test of the deployed wallet with 256 characters. *)
Lemma X18_mocked_settle_witness :
  let lib := Mock.lib Demo.keccak256
               {| ChainConfig.usdcAddress := Demo.asset; ChainConfig.usdcName := "USDC" |}
               Mock.parsedSignature in
  let now := 1700000000000 in
  failsWith (fst (fst (settle lib (Mock.createMockWallet None)
                         (Mock.createMockPayload now now 200 Demo.payer false)
                         Mock.mockPaymentRequirements [now; now])))
    invalid_exact_evm_payload_undeployed_smart_wallet
  /\ List.length
       (filter isWrite
          (snd (settle lib (Mock.createMockWallet (Some "0x6080"))
                  (Mock.createMockPayload now now 256 Demo.payer false)
                  Mock.mockPaymentRequirements [now; now]))) = 1%nat.
Proof.
  intros lib now.
  pose proof (X18_mocked_settle Demo.keccak256
                {| ChainConfig.usdcAddress := Demo.asset; ChainConfig.usdcName := "USDC" |}
                Mock.parsedSignature None now now 200 Demo.payer false now now []) as Hfail.
  pose proof (X18_mocked_settle Demo.keccak256
                {| ChainConfig.usdcAddress := Demo.asset; ChainConfig.usdcName := "USDC" |}
                Mock.parsedSignature (Some "0x6080") now now 256 Demo.payer false now now [])
    as Hok.
  split.
  - destruct Hfail as [Hfail _];
      [vm_compute; discriminate | vm_compute; discriminate | ].
    fold lib in Hfail. rewrite Hfail. split; reflexivity.
  - destruct Hok as [_ Hok];
      [vm_compute; discriminate | vm_compute; discriminate | ].
    exact Hok.
Defined.
